(** * ResearchX: route handlers for plagiarism checks, payments and signup

    A shallow embedding of the Express route handlers of the repository:

    - the plagiarism router ([validateTextInput], [POST /check],
      [GET /status]),
    - the payment router ([GET /initiate/:projectId],
      [POST /verify/:projectId]),
    - the serverless signup handler and the generic [errorHandler],
    - the token storage and the request helper of the browser side
      ([storeToken], [getToken], [clearToken], [makeRequest]).

    Conventions of the embedding.

    - A JavaScript value read from a request body is a [json] value; a
      property that is absent reads as [JUndefined].
    - A JavaScript string is a [string]; each character stands for one code
      unit, so [Js.length] is the [length] property.
    - A JavaScript number is a [float], the kernel's IEEE-754 binary64
      numbers: [+], [-], [*], [/] and the comparisons are those of the
      doubles the code computes with.
    - [res.status(c).json(o)] sends an answer when [c] is a status between
      100 and 999 and throws otherwise.  A route whose [catch] block can
      itself throw gives an [option Response]: [None] is a request the
      route leaves without an answer.
    - A handler is a function of the process configuration, of the behaviour
      of the outside world during the request ([Env]: what every outbound
      call resolves or rejects with) and of the [World] it starts in (the
      [projects] collection and the [trace] of effects so far).  It returns
      the HTTP response and the world it leaves behind.
    - [await] appends the call to the trace when the call is issued, so the
      trace records attempts in program order. *)

From Stdlib Require Import Floats ZArith.
From stdpp Require Import gmap strings list pretty.

Local Open Scope string_scope.
Local Open Scope list_scope.
Local Open Scope Z_scope.

(** ** JavaScript values *)

#[warnings="-register-all"]
Inductive json : Type :=
  | JUndefined
  | JNull
  | JBool (b : bool)
  | JNum (x : float)
  | JStr (s : string)
  | JArr (l : list json)
  | JObj (l : list (string * json)).

(** An object literal, in the order its properties are written. *)
Abbreviation object := (list (string * json)).

Module Js.

(** [ToBoolean]: what [if (v)], [!v] and [v || w] test. *)
Definition truthy (v : json) : bool :=
  match v with
  | JUndefined | JNull => false
  | JBool b => b
  | JNum x => negb (PrimFloat.is_nan x || PrimFloat.is_zero x)
  | JStr s => negb (String.eqb s "")
  | JArr _ | JObj _ => true
  end.

(** [typeof v], for the values a JSON body can hold. *)
Definition typeof (v : json) : string :=
  match v with
  | JUndefined => "undefined"
  | JNull | JArr _ | JObj _ => "object"
  | JBool _ => "boolean"
  | JNum _ => "number"
  | JStr _ => "string"
  end.

(** [a || b]. *)
Definition or (a b : json) : json := if truthy a then a else b.

(** A destructuring default, [const { x = d } = o]: it applies only when
    the property is [undefined]. *)
Definition default_to (d v : json) : json :=
  match v with JUndefined => d | _ => v end.

(** [arr.includes(v)] on an array of strings: SameValueZero never equates
    a string with a value of another type. *)
Definition includes (arr : list string) (v : json) : bool :=
  match v with
  | JStr s => bool_decide (s ∈ arr)
  | _ => false
  end.

(** [arr.join(sep)]. *)
Fixpoint join (sep : string) (arr : list string) : string :=
  match arr with
  | [] => ""
  | [s] => s
  | s :: rest => s +:+ sep +:+ join sep rest
  end.

(** A string-valued setting or property that may be absent ([None]);
    absent and empty are both falsy. *)
Definition truthy_str (o : option string) : bool :=
  match o with
  | Some s => negb (String.eqb s "")
  | None => false
  end.

(** [o || d] on such a property. *)
Definition or_str (o : option string) (d : string) : string :=
  match o with
  | Some s => if String.eqb s "" then d else s
  | None => d
  end.

(** An absent value interpolated in a template literal. *)
Definition interpolate (o : option string) : string :=
  match o with Some s => s | None => "undefined" end.

(** [s.length]. *)
Definition length (s : string) : Z := Z.of_nat (String.length s).

(** [s.substring(from, to)] for [0 <= from <= to]: the characters from
    index [from] up to, not including, index [to] or the end of [s]. *)
Definition substring (from to : Z) (s : string) : string :=
  String.substring (Z.to_nat from) (Z.to_nat (to - from)) s.

(** [!x] on a number: [NaN], [0] and [-0] are falsy. *)
Definition falsy_number (x : float) : bool :=
  PrimFloat.is_nan x || PrimFloat.is_zero x.

(** The number of an integer below [2^63] in absolute value. *)
Definition of_Z (z : Z) : float :=
  if z <? 0 then (- of_uint63 (Uint63Axioms.of_Z (- z)))%float
  else of_uint63 (Uint63Axioms.of_Z z).

(** [Math.round]: [x] itself when it is integral, infinite or [NaN], and
    otherwise the integer nearest to [x], a half going towards [+∞]; the
    zero it gives has the sign of [x].  The integer is computed on the
    mantissa and the exponent of [x], without rounding. *)
Definition Math_round (x : float) : float :=
  match Prim2SF x with
  | S754_finite s m e =>
      if 0 <=? e then x
      else
        let sm := if s then Z.neg m else Z.pos m in
        let n := (2 * sm + 2 ^ (- e)) / 2 ^ (- e + 1) in
        if n =? 0 then (if s then neg_zero else zero) else of_Z n
  | _ => x
  end.

(** Property lookup in an object literal. *)
Fixpoint get (k : string) (o : object) : option json :=
  match o with
  | [] => None
  | (k', v) :: rest => if String.eqb k k' then Some v else get k rest
  end.

Definition keys (o : object) : list string := o.*1.

End Js.

(** ** HTTP plumbing *)

(** An answer: its status and the object handed to [res.json].
    [res.json(o)] alone answers with status 200. *)
Record Response := { statusCode : Z; payload : object }.

Definition json_response (c : Z) (o : object) : Response :=
  {| statusCode := c; payload := o |}.

(** [res.status(c).json(o)] for a status that is computed: writing the head
    of the answer throws for a status outside 100..999. *)
Definition res_status_json (c : Z) (o : object) : option Response :=
  if (100 <=? c) && (c <=? 999) then Some (json_response c o) else None.

(** The body of an answer that is an error, [error.response.data]: [null]
    or [undefined], of which no member can be read, or any other value,
    whose [message] member is a string or absent. *)
Inductive ResponseData : Type :=
  | NullData
  | Data (msg : option string).

(** The [response] member of an axios error: the provider answered with a
    status outside 2xx. *)
Record ErrorResponse := {
  status : Z;
  statusText : string;
  data : ResponseData
}.

(** [response.data?.message]. *)
Definition data_message (r : ErrorResponse) : option string :=
  match data r with
  | NullData => None
  | Data msg => msg
  end.

(** A thrown JavaScript error, with the members the handlers inspect. *)
Record jsError := {
  response : option ErrorResponse;  (* error.response *)
  request : bool;                   (* error.request is set *)
  message : string                  (* error.message *)
}.

(** [new Error(msg)]. *)
Definition Error (msg : string) : jsError :=
  {| response := None; request := false; message := msg |}.

(** The outcome of an awaited call. *)
Inductive Outcome (A : Type) : Type :=
  | Resolved (a : A)
  | Rejected (e : jsError).
Arguments Resolved {A} a.
Arguments Rejected {A} e.

(** [process.env]. *)
Record Config := {
  QUETEXT_API_KEY : option string;
  PAYSTACK_SECRET_KEY : option string;
  BASE_URL : option string;
  NODE_ENV : option string
}.

(** ** Provider payloads *)

(** The body of a 2xx answer of the plagiarism provider; a member the
    provider left out reads as [JUndefined]. *)
Record PlagiarismData := {
  score : json;
  plagiarism : json;
  warnings : json;
  matches : json
}.

(** The JSON body posted to [/transaction/initialize]. *)
Record InitializeRequest := {
  email : string;
  amount : float;                   (* in kobo *)
  reference : string;
  callback_url : string;
  metadata_projectId : string;
  metadata_authorId : option string;
  metadata_accessBankAccount : string;
  metadata_transactionFee : float;
  metadata_project_title : option string;
  metadata_bank_account : string
}.

(** [paystackResponse.data.data]. *)
Record InitializeData := {
  data_reference : string;
  authorization_url : string
}.

(** [transactionData.authorization]. *)
Record Authorization := { authorization_bank : string }.

(** [verificationResponse.data.data]; [tx_authorization] is [None] when the
    answer has no [authorization] member. *)
Record TransactionData := {
  tx_status : string;
  tx_amount : float;                (* in kobo *)
  tx_reference : string;
  tx_paid_at : string;
  tx_authorization : option Authorization
}.

(** The JSON body posted to [/transferrecipient]. *)
Record RecipientRequest := {
  rcp_type : string;
  rcp_name : string;
  account_number : string;
  bank_code : string;
  currency : string
}.

(** The JSON body posted to [/transfer]. *)
Record TransferRequest := {
  source : string;
  transfer_amount : float;
  recipient : string;
  reason : string
}.

(** What [supabase.auth.signUp] resolves with: [{ data, error }]. *)
Record SignUpResult := {
  data_user : json;
  error_message : option string     (* [error] is null, or has a message *)
}.

(** ** The project documents *)

Record PaymentDetails := {
  pd_amount : float;
  paidAt : string;
  bank : string;
  transferTo : string
}.

(** A document of the [projects] collection; [None] is an absent field.
    [price] is a number when present. *)
Record Project := {
  price : option float;
  authorEmail : option string;
  authorId : option string;
  title : option string;
  paymentReference : option string;
  paymentStatus : option string;
  transactionFee : option float;
  totalAmount : option float;
  bankAccount : option string;
  updatedAt : option Z;
  project_status : option string;   (* the field [status] *)
  approvedAt : option Z;
  transactionReference : option string;
  paymentDetails : option PaymentDetails
}.

(** The argument of [update]: the fields to write.  It has the shape of a
    document; [None] leaves the stored field alone. *)
Definition no_change : Project :=
  {| price := None; authorEmail := None; authorId := None; title := None;
     paymentReference := None; paymentStatus := None; transactionFee := None;
     totalAmount := None; bankAccount := None; updatedAt := None;
     project_status := None; approvedAt := None;
     transactionReference := None; paymentDetails := None |}.

Definition overwrite {A : Type} (new old : option A) : option A :=
  match new with Some _ => new | None => old end.

(** The document after [update(fields)]: written fields replace the stored
    ones, all others stay. *)
Definition merge (fields doc : Project) : Project :=
  {| price := overwrite (price fields) (price doc);
     authorEmail := overwrite (authorEmail fields) (authorEmail doc);
     authorId := overwrite (authorId fields) (authorId doc);
     title := overwrite (title fields) (title doc);
     paymentReference := overwrite (paymentReference fields) (paymentReference doc);
     paymentStatus := overwrite (paymentStatus fields) (paymentStatus doc);
     transactionFee := overwrite (transactionFee fields) (transactionFee doc);
     totalAmount := overwrite (totalAmount fields) (totalAmount doc);
     bankAccount := overwrite (bankAccount fields) (bankAccount doc);
     updatedAt := overwrite (updatedAt fields) (updatedAt doc);
     project_status := overwrite (project_status fields) (project_status doc);
     approvedAt := overwrite (approvedAt fields) (approvedAt doc);
     transactionReference := overwrite (transactionReference fields) (transactionReference doc);
     paymentDetails := overwrite (paymentDetails fields) (paymentDetails doc) |}.

(** ** Effects *)

(** Everything a handler does to the outside, in the order it does it. *)
Inductive event : Type :=
  | QuetextPlagiarism (text : string) (language : json) (scan : Z)
  | QuetextStatus
  | PaystackInitialize (req : InitializeRequest)
  | PaystackVerify (ref : json)
  | PaystackTransferRecipient (req : RecipientRequest)
  | PaystackTransfer (req : TransferRequest)
  | SupabaseSignUp (email password : json)
  | FirestoreGet (id : string)
  | FirestoreUpdate (id : string) (fields : Project).

(** The outbound HTTP calls to a provider. *)
Definition provider_call (e : event) : bool :=
  match e with
  | FirestoreGet _ | FirestoreUpdate _ _ => false
  | _ => true
  end.

Definition transfer_call (e : event) : bool :=
  match e with PaystackTransfer _ => true | _ => false end.

Definition recipient_call (e : event) : bool :=
  match e with PaystackTransferRecipient _ => true | _ => false end.

Definition firestore_update (e : event) : bool :=
  match e with FirestoreUpdate _ _ => true | _ => false end.

(** How the outside answers during one request. *)
Record Env := {
  quetext_plagiarism : string -> json -> Z -> Outcome PlagiarismData;
  quetext_status : Outcome json;
  paystack_initialize : InitializeRequest -> Outcome InitializeData;
  paystack_verify : json -> Outcome TransactionData;
  paystack_transferrecipient : RecipientRequest -> Outcome string;
                                    (* resolves with [data.data.recipient_code] *)
  paystack_transfer : TransferRequest -> Outcome unit;
  supabase_signUp : json -> json -> Outcome SignUpResult;
  Date_now : Z;                     (* [Date.now()] *)
  serverTimestamp : Z               (* what the store writes for the sentinel *)
}.

Record World := {
  projects : gmap string Project;
  trace : list event
}.

Definition log (e : event) (w : World) : World :=
  {| projects := projects w; trace := trace w ++ [e] |}.

(** The events a run from [w] to [w'] added. *)
Definition emitted (w w' : World) (evs : list event) : Prop :=
  trace w' = trace w ++ evs.

(** An asynchronous computation: it changes the world and either returns or
    throws. *)
Definition Async (A : Type) : Type := World -> (jsError + A) * World.

#[global] Instance Async_ret : MRet Async := λ A a w, (inr a, w).

#[global] Instance Async_bind : MBind Async := λ A B f m w,
  match m w with
  | (inr a, w') => f a w'
  | (inl e, w') => (inl e, w')
  end.

Definition throw {A : Type} (e : jsError) : Async A := λ w, (inl e, w).

(** [await call]: the call is issued, then resolves or rejects. *)
Definition await {A : Type} (e : event) (o : Outcome A) : Async A := λ w,
  (match o with Resolved a => inr a | Rejected err => inl err end, log e w).

(** [try { body } catch (error) { handler }], for a handler that cannot
    throw. *)
Definition try_catch {A : Type} (body : Async A)
    (handler : jsError -> World -> A * World) : World -> A * World := λ w,
  match body w with
  | (inr a, w') => (a, w')
  | (inl e, w') => handler e w'
  end.

(** [db.collection('projects').doc(id).get()]. *)
Definition doc_get (id : string) : Async (option Project) := λ w,
  (inr (projects w !! id), log (FirestoreGet id) w).

(** [db.collection('projects').doc(id).update(fields)]: the store rejects
    the update of a document that does not exist. *)
Definition doc_update (id : string) (fields : Project) : Async unit := λ w,
  match projects w !! id with
  | Some doc =>
      (inr (), {| projects := <[id := merge fields doc]> (projects w);
                  trace := trace w ++ [FirestoreUpdate id fields] |})
  | None =>
      (inl (Error "No document to update"), log (FirestoreUpdate id fields) w)
  end.

(** ** The plagiarism router

    [router.use(cors())] and [router.use(apiLimiter)] run in front of every
    route of this router; the routes below are what a request that got past
    them meets. *)

Module Plagiarism.

(** The body the rate limiter answers with (status 429 is the library's
    default). *)
Definition apiLimiter_message : object :=
  [("success", JBool false);
   ("error", JStr "Too many requests, please try again later")].

Definition MIN_TEXT_LENGTH : Z := 100.
Definition MAX_TEXT_LENGTH : Z := 10000.
Definition SUPPORTED_LANGUAGES : list string := ["en"; "es"; "fr"; "de"].

(** [req.body] of [POST /check]. *)
Record Body := { text : json; language : json; detailed : json }.

(** What [validateTextInput] stores on [req] before it calls [next()]. *)
Record Validated := { validatedText : string; req_language : json }.

(** The characters of a value known to be a string. *)
Definition chars (v : json) : string :=
  match v with JStr s => s | _ => "" end.

Definition bad_request (msg : string) : Response :=
  json_response 400 [("success", JBool false); ("error", JStr msg)].

(** The middleware: [inl] is the response it sends itself, [inr] is
    [next()]. *)
Definition validateTextInput (body : Body) : Response + Validated :=
  let text := text body in
  let language := Js.default_to (JStr "en") (language body) in
  if negb (Js.truthy text) || negb (String.eqb (Js.typeof text) "string")
  then inl (bad_request "Text is required and must be a string")
  else if (Js.length (chars text) <? MIN_TEXT_LENGTH)%Z
  then inl (bad_request
              ("Text must be at least " +:+ pretty MIN_TEXT_LENGTH
               +:+ " characters long"))
  else if (MAX_TEXT_LENGTH <? Js.length (chars text))%Z
  then inl (bad_request
              ("Text must be less than " +:+ pretty MAX_TEXT_LENGTH
               +:+ " characters"))
  else if negb (Js.includes SUPPORTED_LANGUAGES language)
  then inl (bad_request
              ("Unsupported language. Supported languages: "
               +:+ Js.join ", " SUPPORTED_LANGUAGES))
  else inr {| validatedText := Js.substring 0 MAX_TEXT_LENGTH (chars text);
              req_language := language |}.

(** The [catch] block of [POST /check].  It reads
    [error.response.data.message] without a guard: when the provider's
    answer has no body the block throws, and so it does when the provider's
    status is not one an answer can carry; the request is then left without
    an answer ([None]). *)
Definition check_failed (cfg : Config) (error : jsError) : option Response :=
  let answer (statusCode : Z) (errorMessage : string) :=
    res_status_json statusCode
      [("success", JBool false);
       ("error", JStr errorMessage);
       ("details", if bool_decide (NODE_ENV cfg = Some "development")
                   then JStr (message error) else JUndefined)] in
  match response error with
  | Some r =>
      match data r with
      | NullData => None
      | Data msg =>
          answer (status r) (Js.or_str msg ("API error: " +:+ statusText r))
      end
  | None =>
      if request error
      then answer 500 "No response from plagiarism service"
      else answer 500 "Plagiarism check failed"
  end.

(** The handler of [POST /check], behind the middleware. *)
Definition check_handler (cfg : Config) (env : Env) (body : Body)
    (req : Validated) : World -> option Response * World :=
  try_catch
    (let text := validatedText req in
     let language := req_language req in
     let detailed := Js.default_to (JBool false) (detailed body) in
     if negb (Js.truthy_str (QUETEXT_API_KEY cfg))
     then throw (Error "Plagiarism check service is not configured")
     else
       let scan := if Js.truthy detailed then 1 else 0 in
       data ← await (QuetextPlagiarism text language scan)
                    (quetext_plagiarism env text language scan);
       let result :=
         [("success", JBool true);
          ("score", score data);
          ("plagiarism", plagiarism data);
          ("warnings", Js.or (warnings data) (JArr []));
          ("language", language)] in
       let result :=
         if Js.truthy detailed
         then result ++ [("matches", Js.or (matches data) (JArr []))]
         else result in
       mret (Some (json_response 200 result)))
    (λ error w, (check_failed cfg error, w)).

(** [router.post('/check', validateTextInput, handler)]. *)
Definition check (cfg : Config) (env : Env) (body : Body)
    : World -> option Response * World :=
  match validateTextInput body with
  | inl rejected => λ w, (Some rejected, w)
  | inr req => check_handler cfg env body req
  end.

(** [router.get('/status')]. *)
Definition status_route (cfg : Config) (env : Env)
    : World -> Response * World :=
  try_catch
    (if negb (Js.truthy_str (QUETEXT_API_KEY cfg))
     then mret (json_response 200
                  [("service", JStr "plagiarism");
                   ("status", JStr "disabled");
                   ("message", JStr "QUETEXT_API_KEY not configured")])
     else
       api_status ← await QuetextStatus (quetext_status env);
       mret (json_response 200
               [("service", JStr "plagiarism");
                ("status", JStr "operational");
                ("provider", JStr "Quetext");
                ("limits",
                 JObj [("max_text_length",
                        JNum (Js.of_Z MAX_TEXT_LENGTH));
                       ("min_text_length",
                        JNum (Js.of_Z MIN_TEXT_LENGTH));
                       ("supported_languages",
                        JArr (JStr <$> SUPPORTED_LANGUAGES))]);
                ("api_status", api_status)]))
    (λ error w,
       (json_response 503
          [("service", JStr "plagiarism");
           ("status", JStr "unavailable");
           ("error", JStr "Unable to connect to plagiarism service")], w)).

End Plagiarism.

(** ** The payment router *)

Module Payment.

Definition ACCESS_BANK_ACCOUNT : string := "0818022720".
Definition BANK_CODE : string := "044".
Definition TRANSACTION_FEE_PERCENTAGE : float := 1.5.

Definition failure (c : Z) (msg : string) : Response :=
  json_response c [("success", JBool false); ("error", JStr msg)].

(** [error.response?.data?.message || fallback]. *)
Definition provider_message (error : jsError) (fallback : string) : string :=
  match response error with
  | Some r => Js.or_str (data_message r) fallback
  | None => fallback
  end.

(** The body of the initialize call for [project]. *)
Definition initialize_request (cfg : Config) (env : Env)
    (projectId : string) (project : Project) (price : float)
    : InitializeRequest :=
  let transactionFee := (price * (TRANSACTION_FEE_PERCENTAGE / 100))%float in
  let totalAmount := (price + transactionFee)%float in
  {| email := Js.or_str (authorEmail project) "user@example.com";
     amount := Js.Math_round (totalAmount * 100)%float;
     reference := "RESEARCHX-" +:+ projectId +:+ "-" +:+ pretty (Date_now env);
     callback_url :=
       Js.interpolate (BASE_URL cfg) +:+ "/payment/verify/" +:+ projectId;
     metadata_projectId := projectId;
     metadata_authorId := authorId project;
     metadata_accessBankAccount := ACCESS_BANK_ACCOUNT;
     metadata_transactionFee := transactionFee;
     metadata_project_title := title project;
     metadata_bank_account := ACCESS_BANK_ACCOUNT |}.

(** The fields [GET /initiate] writes. *)
Definition initiated (ref : string) (transactionFee totalAmount : float)
    (now : Z) : Project :=
  {| price := None; authorEmail := None; authorId := None; title := None;
     paymentReference := Some ref;
     paymentStatus := Some "initiated";
     transactionFee := Some transactionFee;
     totalAmount := Some totalAmount;
     bankAccount := Some ACCESS_BANK_ACCOUNT;
     updatedAt := Some now;
     project_status := None; approvedAt := None;
     transactionReference := None; paymentDetails := None |}.

(** [router.get('/initiate/:projectId')].  A path parameter is a string,
    so of [!projectId || typeof projectId !== 'string'] only the first
    test can hold. *)
Definition initiate (cfg : Config) (env : Env) (projectId : string)
    : World -> Response * World :=
  try_catch
    (if String.eqb projectId ""
     then mret (failure 400 "Invalid project ID")
     else
       projectDoc ← doc_get projectId;
       match projectDoc with
       | None => mret (failure 404 "Project not found")
       | Some project =>
           match price project with
           | None => mret (failure 400 "Invalid project price")
           | Some price =>
               if Js.falsy_number price || (price <=? 0)%float
               then mret (failure 400 "Invalid project price")
               else
                 let transactionFee :=
                   (price * (TRANSACTION_FEE_PERCENTAGE / 100))%float in
                 let totalAmount := (price + transactionFee)%float in
                 let req := initialize_request cfg env projectId project price in
                 paystackResponse ←
                   await (PaystackInitialize req) (paystack_initialize env req);
                 _ ← doc_update projectId
                       (initiated (data_reference paystackResponse)
                          transactionFee totalAmount (serverTimestamp env));
                 mret (json_response 200
                         [("success", JBool true);
                          ("authorizationUrl",
                           JStr (authorization_url paystackResponse));
                          ("bankAccount", JStr ACCESS_BANK_ACCOUNT);
                          ("accountName", JStr "ResearchX Platform");
                          ("bankName", JStr "Access Bank");
                          ("amount", JNum totalAmount);
                          ("transactionFee", JNum transactionFee)])
           end
       end)
    (λ error w,
       (failure 500 (provider_message error "Payment initialization failed"),
        w)).

Definition recipient_request : RecipientRequest :=
  {| rcp_type := "nuban";
     rcp_name := "ResearchX Platform";
     account_number := ACCESS_BANK_ACCOUNT;
     bank_code := BANK_CODE;
     currency := "NGN" |}.

#[warnings="-inexact-float"]
Definition transfer_request (projectId : string)
    (transactionData : TransactionData) (recipientCode : string)
    : TransferRequest :=
  {| source := "balance";
     transfer_amount :=
       (tx_amount transactionData - tx_amount transactionData * 0.015)%float;
     recipient := recipientCode;
     reason := "Payment for project " +:+ projectId |}.

(** The fields [POST /verify] writes after the transfer;
    [authorization] is [transactionData.authorization]. *)
Definition completed (transactionData : TransactionData)
    (authorization : Authorization) (now : Z) : Project :=
  {| price := None; authorEmail := None; authorId := None; title := None;
     paymentReference := None;
     paymentStatus := Some "completed";
     transactionFee := None; totalAmount := None; bankAccount := None;
     updatedAt := None;
     project_status := Some "approved";
     approvedAt := Some now;
     transactionReference := Some (tx_reference transactionData);
     paymentDetails :=
       Some {| pd_amount := (tx_amount transactionData / 100)%float;
               paidAt := tx_paid_at transactionData;
               bank := authorization_bank authorization;
               transferTo := ACCESS_BANK_ACCOUNT |} |}.

(** The fields [POST /verify] writes when the payment did not succeed. *)
Definition failed (now : Z) : Project :=
  {| price := None; authorEmail := None; authorId := None; title := None;
     paymentReference := None;
     paymentStatus := Some "failed";
     transactionFee := None; totalAmount := None; bankAccount := None;
     updatedAt := Some now;
     project_status := None; approvedAt := None;
     transactionReference := None; paymentDetails := None |}.

(** [router.post('/verify/:projectId')]; [reference] is
    [req.body.reference].  The object given to [update] is built before
    the call: reading [authorization.bank] throws when the transaction has
    no [authorization]. *)
Definition verify (cfg : Config) (env : Env) (projectId : string)
    (reference : json) : World -> Response * World :=
  try_catch
    (if negb (Js.truthy reference) || String.eqb projectId ""
     then mret (failure 400 "Missing reference or project ID")
     else
       transactionData ←
         await (PaystackVerify reference) (paystack_verify env reference);
       if String.eqb (tx_status transactionData) "success"
       then
         recipientCode ←
           await (PaystackTransferRecipient recipient_request)
                 (paystack_transferrecipient env recipient_request);
         let transfer :=
           transfer_request projectId transactionData recipientCode in
         _ ← await (PaystackTransfer transfer) (paystack_transfer env transfer);
         _ ← match tx_authorization transactionData with
             | Some authorization =>
                 doc_update projectId
                   (completed transactionData authorization
                      (serverTimestamp env))
             | None =>
                 throw (Error "Cannot read properties of undefined")
             end;
         mret (json_response 200
                 [("success", JBool true);
                  ("message",
                   JStr "Payment verified and funds transferred to Access Bank");
                  ("bankAccount", JStr ACCESS_BANK_ACCOUNT);
                  ("amount",
                   JNum (tx_amount transactionData / 100)%float)])
       else
         _ ← doc_update projectId (failed (serverTimestamp env));
         mret (failure 400 "Payment not successful"))
    (λ error w,
       (failure 500 (provider_message error "Payment verification failed"),
        w)).

End Payment.

(** ** The serverless signup handler *)

Module Signup.

Record Body := { email : json; password : json }.

(** [body] is [None] when [req.body] is not set. *)
Record Request := { method : string; body : option Body }.

(** [module.exports] of [api/auth/signup.js]. *)
Definition signup (env : Env) (req : Request) : World -> Response * World :=
  if negb (String.eqb (method req) "POST")
  then λ w, (json_response 405 [("error", JStr "Method not allowed")], w)
  else
    try_catch
      (let b := default {| email := JUndefined; password := JUndefined |}
                  (body req) in
       if negb (Js.truthy (email b)) || negb (Js.truthy (password b))
       then mret (json_response 400
                    [("error", JStr "Email and password are required")])
       else
         r ← await (SupabaseSignUp (email b) (password b))
                   (supabase_signUp env (email b) (password b));
         match error_message r with
         | Some msg => mret (json_response 400 [("error", JStr msg)])
         | None => mret (json_response 200 [("user", data_user r)])
         end)
      (λ e w, (json_response 500 [("error", JStr "Server error")], w)).

End Signup.

(** ** The error-handling middleware *)

Module ErrorHandler.

(** The members of [err] the middleware reads. *)
Record Err := {
  err_statusCode : option Z;
  err_message : string;
  err_stack : string;
  err_details : json
}.

(** [err.statusCode || 500]. *)
Definition status_or_500 (o : option Z) : Z :=
  match o with
  | Some c => if c =? 0 then 500 else c
  | None => 500
  end.

(** [None]: [res.status(statusCode).json] throws, and the answer is left to
    the framework. *)
Definition errorHandler (cfg : Config) (err : Err) : option Response :=
  let production := bool_decide (NODE_ENV cfg = Some "production") in
  let statusCode := status_or_500 (err_statusCode err) in
  let message := if production then "Something went wrong" else err_message err in
  res_status_json statusCode
    ([("status", JStr "error"); ("message", JStr message)]
     ++ (if negb production
         then [("stack", JStr (err_stack err)); ("details", err_details err)]
         else [])).

End ErrorHandler.


(** ** The browser side: token storage and requests

    [localStorage] is a finite map from keys to strings; [getItem] of an
    absent key is [null], here [None].  Instants are milliseconds since the
    epoch.  What the handlers use of the built-in [Date] is gathered in
    [Calendar]: the functions are those of the runtime and of its time
    zone, and are taken as given. *)

Module Client.

Definition API_BASE_URL : string := "/.netlify/functions/server".
Definition TOKEN_KEY : string := "researchx_token".
Definition TOKEN_EXPIRY_KEY : string := "researchx_token_expiry".
Definition TOKEN_EXPIRY_DAYS : Z := 7.

Record Calendar := {
  (** [d.setDate(d.getDate() + n)]: the instant [n] calendar days later,
      in local time. *)
  plus_days : Z -> Z -> Z;
  (** [d.toISOString()]. *)
  toISOString : Z -> string;
  (** [new Date(s).getTime()]; [None] is the invalid date, whose time is
      [NaN]. *)
  Date_parse : string -> option Z
}.

(** [new Date(s) < new Date()] at the instant [now]: a comparison with
    [NaN] is false. *)
Definition before (cal : Calendar) (s : string) (now : Z) : bool :=
  match Date_parse cal s with
  | Some t => t <? now
  | None => false
  end.

Definition clearToken (st : gmap string string) : gmap string string :=
  delete TOKEN_EXPIRY_KEY (delete TOKEN_KEY st).

Definition storeToken (cal : Calendar) (now : Z) (token : string)
    (st : gmap string string) : gmap string string :=
  let expiryDate := plus_days cal now TOKEN_EXPIRY_DAYS in
  <[TOKEN_EXPIRY_KEY := toISOString cal expiryDate]> (<[TOKEN_KEY := token]> st).

(** [getToken()]: the token, or [null], and the storage it leaves. *)
Definition getToken (cal : Calendar) (now : Z) (st : gmap string string)
    : option string * gmap string string :=
  let token := st !! TOKEN_KEY in
  let expiry := st !! TOKEN_EXPIRY_KEY in
  if negb (Js.truthy_str token) || negb (Js.truthy_str expiry)
     || before cal (default "" expiry) now
  then (None, clearToken st)
  else (token, st).

(** The [body] argument of [makeRequest]. *)
Inductive RequestBody : Type :=
  | NoBody                                    (* null *)
  | JsonBody (j : json)                       (* a value to stringify *)
  | FormBody (fields : list (string * string)). (* a FormData *)

(** The [body] option given to [fetch]; the text [JSON.stringify] makes of
    [j] is not spelled out. *)
Inductive SentBody : Type :=
  | SentNothing
  | SentJson (j : json)
  | SentForm (fields : list (string * string)).

Record FetchRequest := {
  fetch_url : string;
  fetch_method : string;
  content_type : option string;
  authorization : option string;
  fetch_body : SentBody
}.

(** What [fetch] resolves with.  For a response that is [ok], the outcome
    of [response.json()]; for one that is not, its status and the [error]
    member of its body: a string, or [None] when the body has none or does
    not parse. *)
Inductive FetchResponse : Type :=
  | Ok (data : Outcome json)
  | NotOk (code : Z) (error : option string).

(** The outcome of [makeRequest], the storage it leaves and the requests
    it sent. *)
Record Requested := {
  outcome : Outcome json;
  storage : gmap string string;
  sent : list FetchRequest
}.

Definition makeRequest (cal : Calendar) (now : Z)
    (fetch : FetchRequest -> Outcome FetchResponse)
    (url method : string) (body : RequestBody) (requiresAuth : bool)
    (st : gmap string string) : Requested :=
  let content := match body with
                 | FormBody _ => None
                 | _ => Some "application/json"
                 end in
  let payload := match body with
                 | FormBody f => SentForm f
                 | JsonBody j => if Js.truthy j then SentJson j else SentNothing
                 | NoBody => SentNothing
                 end in
  let send (auth : option string) (st' : gmap string string) : Requested :=
    let req := {| fetch_url := API_BASE_URL +:+ url;
                  fetch_method := method;
                  content_type := content;
                  authorization := auth;
                  fetch_body := payload |} in
    {| outcome :=
         match fetch req with
         | Rejected e => Rejected e
         | Resolved (Ok data) => data
         | Resolved (NotOk code error) =>
             Rejected (Error (Js.or_str error
                                ("Request failed with status " +:+ pretty code)))
         end;
       storage := st';
       sent := [req] |} in
  if requiresAuth
  then
    let '(token, st') := getToken cal now st in
    if negb (Js.truthy_str token)
    then {| outcome := Rejected (Error "Authentication required");
            storage := st';
            sent := [] |}
    else send (Some ("Bearer " +:+ Js.interpolate token)) st'
  else send None st.

End Client.

(** * Vocabulary of the properties *)

(** ** Reading responses *)

(** The envelope of a failure: [success: false] and a non-empty [error]
    string. *)
Definition error_envelope (o : object) : Prop :=
  Js.get "success" o = Some (JBool false) ∧
  ∃ msg, Js.get "error" o = Some (JStr msg) ∧ msg ≠ "".

Definition has_key (k : string) (o : object) : Prop := k ∈ Js.keys o.

(** The answer of a request that went through: status 200 and
    [success: true]. *)
Definition success_response (r : Response) : Prop :=
  statusCode r = 200 ∧ Js.get "success" (payload r) = Some (JBool true).

(** A failure that carries an [error] string but no [success] member. *)
Definition bare_error (o : object) : Prop :=
  Js.get "success" o = None ∧ ∃ msg, Js.get "error" o = Some (JStr msg).

(** ** Sample data, for the closed instances below *)

Module Sample.

(** A text of 114 characters. *)
Definition text : string :=
  "The quick brown fox jumps over the lazy dog while the " +:+
  "five boxing wizards jump quickly and pack my box with jugs.".

Definition cfg : Config :=
  {| QUETEXT_API_KEY := Some "qt-key";
     PAYSTACK_SECRET_KEY := Some "sk-key";
     BASE_URL := Some "https://researchx.example";
     NODE_ENV := Some "production" |}.

Definition plagiarism_data : PlagiarismData :=
  {| score := JNum 12; plagiarism := JBool false;
     warnings := JUndefined; matches := JUndefined |}.

Definition transaction (st : string) : TransactionData :=
  {| tx_status := st; tx_amount := 1015000; tx_reference := "RESEARCHX-p1-1";
     tx_paid_at := "2024-05-01T10:00:00.000Z";
     tx_authorization := Some {| authorization_bank := "Access Bank" |} |}.

Definition network_error : jsError :=
  {| response := None; request := true; message := "timeout exceeded" |}.

(** Every provider answers; the verify call reports status [st]. *)
Definition env (st : string) : Env :=
  {| quetext_plagiarism := λ _ _ _, Resolved plagiarism_data;
     quetext_status := Resolved (JObj []);
     paystack_initialize := λ req,
       Resolved {| data_reference := reference req;
                   authorization_url := "https://checkout.example/abc" |};
     paystack_verify := λ _, Resolved (transaction st);
     paystack_transferrecipient := λ _, Resolved "RCP_1";
     paystack_transfer := λ _, Resolved ();
     supabase_signUp := λ _ _,
       Resolved {| data_user := JObj []; error_message := None |};
     Date_now := 1714557600000;
     serverTimestamp := 1714557600123 |}.

(** As [env "success"], but the transfer call fails. *)
Definition env_transfer_fails : Env :=
  {| quetext_plagiarism := quetext_plagiarism (env "success");
     quetext_status := quetext_status (env "success");
     paystack_initialize := paystack_initialize (env "success");
     paystack_verify := paystack_verify (env "success");
     paystack_transferrecipient := paystack_transferrecipient (env "success");
     paystack_transfer := λ _, Rejected network_error;
     supabase_signUp := supabase_signUp (env "success");
     Date_now := Date_now (env "success");
     serverTimestamp := serverTimestamp (env "success") |}.

Definition project (p : option float) : Project :=
  {| price := p; authorEmail := Some "author@example.com";
     authorId := Some "u1"; title := Some "A thesis";
     paymentReference := None; paymentStatus := None;
     transactionFee := None; totalAmount := None; bankAccount := None;
     updatedAt := None; project_status := None; approvedAt := None;
     transactionReference := None; paymentDetails := None |}.

(** A store with the single project ["p1"]. *)
Definition world (p : option float) : World :=
  {| projects := {[ "p1" := project p ]}; trace := [] |}.

End Sample.


(** ** Requests the plagiarism check must refuse *)

Module CheckSpec.
Import Plagiarism.

(** The text is missing, is not a string, is shorter than the minimum or
    longer than the maximum, or the request names a language that is none
    of the supported codes. *)
Inductive invalid_input (b : Body) : Prop :=
  | text_missing :
      text b = JUndefined -> invalid_input b
  | text_not_a_string :
      Js.typeof (text b) ≠ "string" -> invalid_input b
  | text_too_short (s : string) :
      text b = JStr s -> Js.length s < MIN_TEXT_LENGTH -> invalid_input b
  | text_too_long (s : string) :
      text b = JStr s -> MAX_TEXT_LENGTH < Js.length s -> invalid_input b
  | language_unsupported :
      language b ≠ JUndefined ->
      (∀ l, l ∈ SUPPORTED_LANGUAGES -> language b ≠ JStr l) ->
      invalid_input b.

(** A text of [n] copies of the letter x. *)
Fixpoint filler (n : nat) : string :=
  match n with
  | O => ""
  | S n => "x" +:+ filler n
  end.

End CheckSpec.

(** ** Vocabulary of the payment properties *)

Module PaymentSpec.

(** The transaction fee rate, 1.5 %. *)
Definition feeRate : float := 1.5 / 100.


(** No event of [evs] is an outbound call to a provider. *)
Definition no_provider_call (evs : list event) : Prop :=
  Forall (λ e, provider_call e = false) evs.

(** No event of [evs] is a recipient-creation or a transfer call. *)
Definition no_transfer_attempt (evs : list event) : Prop :=
  Forall (λ e, recipient_call e = false ∧ transfer_call e = false) evs.

(** No event of [evs] is a write to the store. *)
Definition no_update (evs : list event) : Prop :=
  Forall (λ e, firestore_update e = false) evs.

(** The stored payment status of project [id]. *)
Definition stored_status (w : World) (id : string) : option string :=
  projects w !! id ≫= paymentStatus.

End PaymentSpec.

(** ** More sample data *)

Module Outside.

(** An outside world given by the outcome of every kind of call. *)
Definition answering (plag : Outcome PlagiarismData) (probe : Outcome json)
    (init : Outcome InitializeData) (ver : Outcome TransactionData)
    (rcp : Outcome string) (tr : Outcome unit) (su : Outcome SignUpResult)
    : Env :=
  {| quetext_plagiarism := λ _ _ _, plag;
     quetext_status := probe;
     paystack_initialize := λ _, init;
     paystack_verify := λ _, ver;
     paystack_transferrecipient := λ _, rcp;
     paystack_transfer := λ _, tr;
     supabase_signUp := λ _ _, su;
     Date_now := 1714557600000;
     serverTimestamp := 1714557600123 |}.

(** The provider answered with status 429 and a message. *)
Definition too_many_requests : jsError :=
  {| response := Some {| status := 429; statusText := "Too Many Requests";
                         data := Data (Some "Rate limit exceeded") |};
     request := true;
     message := "Request failed with status code 429" |}.

(** The provider answered with status 502 and no body. *)
Definition bad_gateway : jsError :=
  {| response := Some {| status := 502; statusText := "Bad Gateway";
                         data := NullData |};
     request := true;
     message := "Request failed with status code 502" |}.

(** The provider answered with status 503 and a body without message. *)
Definition unavailable : jsError :=
  {| response := Some {| status := 503; statusText := "Service Unavailable";
                         data := Data None |};
     request := true;
     message := "Request failed with status code 503" |}.


(** A successful payment whose answer carries no authorization. *)
Definition payment_without_authorization : TransactionData :=
  {| tx_status := "success"; tx_amount := 1015000;
     tx_reference := "RESEARCHX-p1-1";
     tx_paid_at := "2024-05-01T10:00:00.000Z";
     tx_authorization := None |}.

Definition initialized : InitializeData :=
  {| data_reference := "RESEARCHX-p1-1714557600000";
     authorization_url := "https://checkout.example/abc" |}.

Definition signed_up : SignUpResult :=
  {| data_user := JObj [("id", JStr "u1")]; error_message := None |}.

(** Every call of the plagiarism provider fails with [e]; the rest
    resolves. *)
Definition plagiarism_failing (e : jsError) : Env :=
  answering (Rejected e) (Rejected e) (Resolved initialized)
    (Resolved (Sample.transaction "success")) (Resolved "RCP_1")
    (Resolved ()) (Resolved signed_up).

(** A valid body of [POST /check]. *)
Definition body : Plagiarism.Body :=
  {| Plagiarism.text := JStr Sample.text;
     Plagiarism.language := JUndefined;
     Plagiarism.detailed := JUndefined |}.

Definition validated : Plagiarism.Validated :=
  {| Plagiarism.validatedText := Sample.text;
     Plagiarism.req_language := JStr "en" |}.

(** The process configuration without the plagiarism key. *)
Definition unconfigured : Config :=
  {| QUETEXT_API_KEY := None;
     PAYSTACK_SECRET_KEY := Some "sk-key";
     BASE_URL := Some "https://researchx.example";
     NODE_ENV := Some "development" |}.

End Outside.

(** ** Vocabulary of the further payment properties *)

Module PaymentVocabulary.

Definition firestore_get (e : event) : bool :=
  match e with FirestoreGet _ => true | _ => false end.

(** What a project is, as opposed to how its payment stands: no route
    writes these fields. *)
Definition same_description (p p' : Project) : Prop :=
  price p' = price p
  ∧ authorEmail p' = authorEmail p
  ∧ authorId p' = authorId p
  ∧ title p' = title p.

(** The fields the initiation writes. *)
Definition same_initiation (p p' : Project) : Prop :=
  paymentReference p' = paymentReference p
  ∧ transactionFee p' = transactionFee p
  ∧ totalAmount p' = totalAmount p
  ∧ bankAccount p' = bankAccount p.

(** The fields the approval writes. *)
Definition same_approval (p p' : Project) : Prop :=
  project_status p' = project_status p
  ∧ approvedAt p' = approvedAt p
  ∧ transactionReference p' = transactionReference p
  ∧ paymentDetails p' = paymentDetails p.

(** Every document but the one of [id] is as before. *)
Definition others_untouched (id : string) (w w' : World) : Prop :=
  ∀ id', id' ≠ id -> projects w' !! id' = projects w !! id'.

(** Every run of [verify], by the case it falls in: the events it adds, the
    projects it leaves and the answer it gives. *)
Inductive verify_run (cfg : Config) (env : Env) (pid : string) (ref : json)
    (w : World) : list event -> gmap string Project -> Response -> Prop :=
  | run_refused :
      negb (Js.truthy ref) || String.eqb pid "" = true ->
      verify_run cfg env pid ref w [] (projects w)
        (Payment.failure 400 "Missing reference or project ID")
  | run_unverified (e : jsError) :
      paystack_verify env ref = Rejected e ->
      verify_run cfg env pid ref w [PaystackVerify ref] (projects w)
        (Payment.failure 500
           (Payment.provider_message e "Payment verification failed"))
  | run_not_paid (tx : TransactionData) :
      paystack_verify env ref = Resolved tx ->
      tx_status tx ≠ "success" ->
      verify_run cfg env pid ref w
        [PaystackVerify ref;
         FirestoreUpdate pid (Payment.failed (serverTimestamp env))]
        (match projects w !! pid with
         | Some p =>
             <[pid := merge (Payment.failed (serverTimestamp env)) p]>
               (projects w)
         | None => projects w
         end)
        (match projects w !! pid with
         | Some _ => Payment.failure 400 "Payment not successful"
         | None => Payment.failure 500 "Payment verification failed"
         end)
  | run_no_recipient (tx : TransactionData) (e : jsError) :
      paystack_verify env ref = Resolved tx ->
      tx_status tx = "success" ->
      paystack_transferrecipient env Payment.recipient_request = Rejected e ->
      verify_run cfg env pid ref w
        [PaystackVerify ref; PaystackTransferRecipient Payment.recipient_request]
        (projects w)
        (Payment.failure 500
           (Payment.provider_message e "Payment verification failed"))
  | run_no_transfer (tx : TransactionData) (code : string) (e : jsError) :
      paystack_verify env ref = Resolved tx ->
      tx_status tx = "success" ->
      paystack_transferrecipient env Payment.recipient_request = Resolved code ->
      paystack_transfer env (Payment.transfer_request pid tx code) = Rejected e ->
      verify_run cfg env pid ref w
        [PaystackVerify ref; PaystackTransferRecipient Payment.recipient_request;
         PaystackTransfer (Payment.transfer_request pid tx code)]
        (projects w)
        (Payment.failure 500
           (Payment.provider_message e "Payment verification failed"))
  | run_no_authorization (tx : TransactionData) (code : string) :
      paystack_verify env ref = Resolved tx ->
      tx_status tx = "success" ->
      paystack_transferrecipient env Payment.recipient_request = Resolved code ->
      paystack_transfer env (Payment.transfer_request pid tx code) = Resolved () ->
      tx_authorization tx = None ->
      verify_run cfg env pid ref w
        [PaystackVerify ref; PaystackTransferRecipient Payment.recipient_request;
         PaystackTransfer (Payment.transfer_request pid tx code)]
        (projects w)
        (Payment.failure 500 "Payment verification failed")
  | run_transferred (tx : TransactionData) (code : string)
        (auth : Authorization) :
      paystack_verify env ref = Resolved tx ->
      tx_status tx = "success" ->
      paystack_transferrecipient env Payment.recipient_request = Resolved code ->
      paystack_transfer env (Payment.transfer_request pid tx code) = Resolved () ->
      tx_authorization tx = Some auth ->
      verify_run cfg env pid ref w
        [PaystackVerify ref; PaystackTransferRecipient Payment.recipient_request;
         PaystackTransfer (Payment.transfer_request pid tx code);
         FirestoreUpdate pid (Payment.completed tx auth (serverTimestamp env))]
        (match projects w !! pid with
         | Some p =>
             <[pid := merge (Payment.completed tx auth (serverTimestamp env)) p]>
               (projects w)
         | None => projects w
         end)
        (match projects w !! pid with
         | Some _ =>
             json_response 200
               [("success", JBool true);
                ("message",
                 JStr "Payment verified and funds transferred to Access Bank");
                ("bankAccount", JStr Payment.ACCESS_BANK_ACCOUNT);
                ("amount", JNum (tx_amount tx / 100)%float)]
         | None => Payment.failure 500 "Payment verification failed"
         end).

End PaymentVocabulary.

(** ** A sample browser *)

Module Browser.

(** A calendar without daylight saving, which prints and reads back the
    one instant the samples store. *)
Definition calendar : Client.Calendar :=
  {| Client.plus_days := λ t n, t + n * 86400000;
     Client.toISOString := λ t,
       if t =? 1715162400000 then "2024-05-08T10:00:00.000Z" else pretty t;
     Client.Date_parse := λ s,
       if String.eqb s "2024-05-08T10:00:00.000Z"
       then Some 1715162400000 else None |}.

(** The first of May 2024, 10:00 UTC. *)
Definition now : Z := 1714557600000.

(** A storage with an entry of another script. *)
Definition storage : gmap string string := {[ "theme" := "dark" ]}.

(** A token stored with an expiry that does not read as a date. *)
Definition damaged : gmap string string :=
  {[ Client.TOKEN_KEY := "tok-1"; Client.TOKEN_EXPIRY_KEY := "next week" ]}.

(** A server that answers every request with 401 and an error text. *)
Definition unauthorized (req : Client.FetchRequest)
    : Outcome Client.FetchResponse :=
  Resolved (Client.NotOk 401 (Some "Invalid token")).

End Browser.

(** ** Vocabulary of the further check and request properties *)

Module CheckVocabulary.
Import Plagiarism.

(** The call [POST /check] issues for a validated request. *)
Definition provider_call_of (b : Body) (v : Validated) : event :=
  QuetextPlagiarism (validatedText v) (req_language v)
    (if Js.truthy (detailed b) then 1 else 0).

End CheckVocabulary.

Module ClientVocabulary.
Import Client.

(** The request [makeRequest] builds. *)
Definition request_of (url method : string) (body : RequestBody)
    (auth : option string) : FetchRequest :=
  {| fetch_url := API_BASE_URL +:+ url;
     fetch_method := method;
     content_type := match body with
                     | FormBody _ => None
                     | _ => Some "application/json"
                     end;
     authorization := auth;
     fetch_body := match body with
                   | FormBody f => SentForm f
                   | JsonBody j =>
                       if Js.truthy j then SentJson j else SentNothing
                   | NoBody => SentNothing
                   end |}.

(** What [makeRequest] makes of the answer to its request. *)
Definition outcome_of (answer : Outcome FetchResponse) : Outcome json :=
  match answer with
  | Rejected e => Rejected e
  | Resolved (Ok data) => data
  | Resolved (NotOk code error) =>
      Rejected (Error (Js.or_str error
                         ("Request failed with status " +:+ pretty code)))
  end.

End ClientVocabulary.

(** * Properties *)

(** ** The async monad *)

Section async_laws.
Context {A B : Type}.

Lemma bind_ret (a : A) (k : A -> Async B) (w : World) :
  (mret a ≫= k) w = k a w.
Proof. reflexivity. Qed.

Lemma bind_throw (e : jsError) (k : A -> Async B) (w : World) :
  (throw e ≫= k) w = (inl e, w).
Proof. reflexivity. Qed.

Lemma bind_await_resolved (ev : event) (a : A) (k : A -> Async B) (w : World) :
  (await ev (Resolved a) ≫= k) w = k a (log ev w).
Proof. reflexivity. Qed.

Lemma bind_await_rejected (ev : event) (e : jsError) (k : A -> Async B)
    (w : World) :
  (await ev (Rejected e) ≫= k) w = (inl e, log ev w).
Proof. reflexivity. Qed.
End async_laws.

Lemma emitted_nil (w : World) : emitted w w [].
Proof. unfold emitted. by rewrite app_nil_r. Qed.

Lemma emitted_log (w : World) (e : event) : emitted w (log e w) [e].
Proof. reflexivity. Qed.

Lemma emitted_trans (w1 w2 w3 : World) (evs evs' : list event) :
  emitted w1 w2 evs -> emitted w2 w3 evs' -> emitted w1 w3 (evs ++ evs').
Proof. unfold emitted. intros H1 H2. by rewrite H2, H1, app_assoc. Qed.

(** ** The plagiarism check *)

Module PlagiarismFacts.
Import Plagiarism.

(** [substring(0, n)] keeps a string of at most [n] characters whole. *)
Lemma substring_whole (s : string) (n : nat) :
  (String.length s <= n)%nat -> String.substring 0 n s = s.
Proof.
  revert n. induction s as [|c s IH]; intros [|n] Hlen; simpl in *;
    try reflexivity; try lia.
  f_equal. apply IH. lia.
Qed.

Lemma js_substring_whole (s : string) (n : Z) :
  Js.length s <= n -> Js.substring 0 n s = s.
Proof.
  unfold Js.length, Js.substring. intros Hlen.
  apply substring_whole. lia.
Qed.

(** Whatever the middleware sends itself is a 400 in the error envelope. *)
Lemma validateTextInput_inl (b : Body) (r : Response) :
  validateTextInput b = inl r ->
  statusCode r = 400 ∧ error_envelope (payload r).
Proof.
  unfold validateTextInput, bad_request, error_envelope.
  repeat case_match; intros [= <-]; simpl;
    (split; [reflexivity | split; [reflexivity | eexists; split; [reflexivity | ]]]);
    vm_compute; discriminate.
Qed.

(** When the middleware calls [next()], the text is a string within the
    bounds and the language is a supported code. *)
Lemma validateTextInput_inr (b : Body) (v : Validated) :
  validateTextInput b = inr v ->
  ∃ s, text b = JStr s
       ∧ MIN_TEXT_LENGTH <= Js.length s <= MAX_TEXT_LENGTH
       ∧ Js.includes SUPPORTED_LANGUAGES
           (Js.default_to (JStr "en") (language b)) = true
       ∧ v = {| validatedText := Js.substring 0 MAX_TEXT_LENGTH s;
                req_language := Js.default_to (JStr "en") (language b) |}.
Proof.
  unfold validateTextInput.
  destruct (text b) as [| |x|q|s|l|l] eqn:Ht; simpl;
    rewrite ?orb_true_r; try discriminate.
  destruct (String.eqb s ""); simpl; [discriminate|].
  destruct (Z.ltb_spec (Js.length s) MIN_TEXT_LENGTH); [discriminate|].
  destruct (Z.ltb_spec MAX_TEXT_LENGTH (Js.length s)); [discriminate|].
  destruct (Js.includes _ _) eqn:Hl; simpl; [|discriminate].
  intros [= <-]. exists s. repeat split; auto.
Qed.

End PlagiarismFacts.

Module CheckFacts.
Import Plagiarism CheckSpec PlagiarismFacts.

Lemma truthy_default_false (v : json) :
  Js.truthy (Js.default_to (JBool false) v) = Js.truthy v.
Proof. by destruct v. Qed.

Lemma includes_spec (arr : list string) (v : json) :
  Js.includes arr v = true -> ∃ l, v = JStr l ∧ l ∈ arr.
Proof.
  destruct v; simpl; try discriminate.
  intros H%bool_decide_eq_true. eauto.
Qed.

(** C6: a request whose text is missing, not a string, too short or too
    long, or whose language is not supported, is answered with status 400
    and [success: false]; the world is left as it was, so no call to the
    plagiarism provider was made. *)
Theorem check_rejects_invalid_input (cfg : Config) (env : Env) (b : Body)
    (w : World) :
  invalid_input b ->
  ∃ r, check cfg env b w = (Some r, w)
       ∧ statusCode r = 400
       ∧ Js.get "success" (payload r) = Some (JBool false).
Proof.
  intros Hbad. unfold check.
  destruct (validateTextInput b) as [r|v] eqn:Hv.
  - apply validateTextInput_inl in Hv as (Hc & Hs & _). eauto.
  - exfalso.
    apply validateTextInput_inr in Hv as (s & Ht & [Hmin Hmax] & Hl & _).
    destruct Hbad as [H|H|s' H Hlen|s' H Hlen|Hdef Hnone].
    + congruence.
    + apply H. by rewrite Ht.
    + assert (s' = s) as -> by congruence. lia.
    + assert (s' = s) as -> by congruence. lia.
    + apply includes_spec in Hl as (l & Heq & Hin).
      destruct (language b) eqn:Hb; simpl in Heq; try discriminate;
        try congruence.
      apply (Hnone l Hin). congruence.
Qed.

(** Instance: a body without [text]. *)
Lemma check_rejects_invalid_input_witness :
  let b := {| text := JUndefined; language := JStr "en";
              detailed := JUndefined |} in
  invalid_input b
  ∧ ∃ r, check Sample.cfg (Sample.env "success") b (Sample.world None)
           = (Some r, Sample.world None)
         ∧ statusCode r = 400
         ∧ Js.get "success" (payload r) = Some (JBool false).
Proof.
  intros b.
  assert (invalid_input b) as H by (apply text_missing; reflexivity).
  split; [exact H|].
  exact (check_rejects_invalid_input Sample.cfg (Sample.env "success") b
           (Sample.world None) H).
Defined.

(** A text of 10001 characters and a language outside the list, run
    through the route. *)
Example check_rejects_long_text :
  (check Sample.cfg (Sample.env "success")
     {| text := JStr (filler (Z.to_nat 10001)); language := JUndefined;
        detailed := JUndefined |} (Sample.world None)).1
  = Some (bad_request "Text must be less than 10000 characters").
Proof. vm_compute. reflexivity. Qed.

Example check_rejects_unknown_language :
  (check Sample.cfg (Sample.env "success")
     {| text := JStr Sample.text; language := JStr "it";
        detailed := JUndefined |} (Sample.world None)).1
  = Some (bad_request
            "Unsupported language. Supported languages: en, es, fr, de").
Proof. vm_compute. reflexivity. Qed.

(** C9: when the request passes validation, the validated text is the
    submitted text, character for character, and it is what the provider
    call carries. *)
Theorem check_forwards_text_unchanged (cfg : Config) (env : Env) (b : Body)
    (v : Validated) (w : World) :
  validateTextInput b = inr v ->
  text b = JStr (validatedText v)
  ∧ (Js.truthy_str (QUETEXT_API_KEY cfg) = true ->
     ∃ scan, emitted w (check cfg env b w).2
               [QuetextPlagiarism (validatedText v) (req_language v) scan]).
Proof.
  intros Hv. unfold check. rewrite Hv.
  apply validateTextInput_inr in Hv as (s & Ht & [Hmin Hmax] & Hl & ->).
  cbn [validatedText req_language].
  rewrite js_substring_whole by done. split; [done|].
  intros Hkey. unfold check_handler, try_catch.
  cbn [validatedText req_language]. rewrite Hkey. cbn [negb].
  eexists. unfold mbind, Async_bind, await.
  destruct (quetext_plagiarism env s _ _); reflexivity.
Qed.

(** Instance: the sample text, no language given. *)
Lemma check_forwards_text_unchanged_witness :
  let b := {| text := JStr Sample.text; language := JUndefined;
              detailed := JUndefined |} in
  let v := {| validatedText := Sample.text; req_language := JStr "en" |} in
  validateTextInput b = inr v
  ∧ text b = JStr (validatedText v)
  ∧ (Js.truthy_str (QUETEXT_API_KEY Sample.cfg) = true ->
     ∃ scan, emitted (Sample.world None)
               (check Sample.cfg (Sample.env "success") b (Sample.world None)).2
               [QuetextPlagiarism (validatedText v) (req_language v) scan]).
Proof.
  intros b v.
  assert (validateTextInput b = inr v) as H by (vm_compute; reflexivity).
  split; [exact H|].
  exact (check_forwards_text_unchanged Sample.cfg (Sample.env "success") b v
           (Sample.world None) H).
Defined.

(** The result object of a resolved provider call. *)
Lemma check_resolved (cfg : Config) (env : Env) (b : Body) (v : Validated)
    (d : PlagiarismData) (w : World) :
  validateTextInput b = inr v ->
  Js.truthy_str (QUETEXT_API_KEY cfg) = true ->
  quetext_plagiarism env (validatedText v) (req_language v)
    (if Js.truthy (detailed b) then 1 else 0) = Resolved d ->
  (check cfg env b w).1
  = Some (json_response 200
            ([("success", JBool true);
              ("score", score d);
              ("plagiarism", plagiarism d);
              ("warnings", Js.or (warnings d) (JArr []));
              ("language", req_language v)]
             ++ (if Js.truthy (detailed b)
                 then [("matches", Js.or (matches d) (JArr []))] else []))).
Proof.
  intros Hv Hkey Hd. unfold check. rewrite Hv.
  unfold check_handler, try_catch. rewrite Hkey. cbn [negb].
  unfold mbind, Async_bind, await.
  rewrite truthy_default_false, Hd.
  destruct (Js.truthy (detailed b)); reflexivity.
Qed.

(** C8, as stated, fails: with [detailed: 1] in the body the response
    carries [matches], although [detailed] was not set to [true]. *)
Lemma check_matches_without_detailed_true :
  let b := {| text := JStr Sample.text; language := JUndefined;
              detailed := JNum 1 |} in
  ∃ r, (check Sample.cfg (Sample.env "success") b (Sample.world None)).1
       = Some r
       ∧ statusCode r = 200
       ∧ ¬ (has_key "matches" (payload r) ↔ detailed b = JBool true).
Proof.
  intros b. eexists. split; [vm_compute; reflexivity|].
  split; [reflexivity|].
  intros [Hkey _].
  assert (detailed b = JBool true) as H; [|discriminate H].
  apply Hkey. unfold has_key. cbn. do 5 apply list_elem_of_further.
  apply list_elem_of_here.
Qed.

(** C8, amended: on a resolved provider call the route answers 200 with an
    object that holds [success], [score], [plagiarism], [warnings] and
    [language], and it holds [matches] exactly when the request's
    [detailed] is truthy. *)
Theorem check_success_shape (cfg : Config) (env : Env) (b : Body)
    (v : Validated) (d : PlagiarismData) (w : World) :
  validateTextInput b = inr v ->
  Js.truthy_str (QUETEXT_API_KEY cfg) = true ->
  quetext_plagiarism env (validatedText v) (req_language v)
    (if Js.truthy (detailed b) then 1 else 0) = Resolved d ->
  ∃ r, (check cfg env b w).1 = Some r
       ∧ statusCode r = 200
       ∧ Js.get "success" (payload r) = Some (JBool true)
       ∧ (∀ k, k ∈ ["success"; "score"; "plagiarism"; "warnings"; "language"] ->
               has_key k (payload r))
       ∧ (has_key "matches" (payload r) ↔ Js.truthy (detailed b) = true).
Proof.
  intros Hv Hkey Hd.
  rewrite (check_resolved cfg env b v d w Hv Hkey Hd).
  eexists. split; [reflexivity|].
  unfold has_key, Js.keys. cbn [statusCode payload json_response].
  split; [reflexivity|]. split; [reflexivity|].
  rewrite fmap_app. cbn [fmap list_fmap fst].
  split.
  - intros k Hk. apply elem_of_app. by left.
  - destruct (Js.truthy (detailed b)); cbn [fmap list_fmap fst]; split.
    + done.
    + intros _. apply elem_of_app. right. by apply list_elem_of_singleton.
    + rewrite app_nil_r. intros H.
      repeat (apply elem_of_cons in H as [H|H]; [discriminate H|]).
      by apply elem_of_nil in H.
    + done.
Qed.

(** Instance: a French text with [detailed: true]. *)
Lemma check_success_shape_witness :
  let b := {| text := JStr Sample.text; language := JStr "fr";
              detailed := JBool true |} in
  let v := {| validatedText := Sample.text; req_language := JStr "fr" |} in
  validateTextInput b = inr v
  ∧ Js.truthy_str (QUETEXT_API_KEY Sample.cfg) = true
  ∧ ∃ r, (check Sample.cfg (Sample.env "success") b (Sample.world None)).1
         = Some r
         ∧ statusCode r = 200
         ∧ Js.get "success" (payload r) = Some (JBool true)
         ∧ (∀ k, k ∈ ["success"; "score"; "plagiarism"; "warnings"; "language"] ->
                 has_key k (payload r))
         ∧ (has_key "matches" (payload r) ↔ Js.truthy (detailed b) = true).
Proof.
  intros b v.
  assert (validateTextInput b = inr v) as Hv by (vm_compute; reflexivity).
  assert (Js.truthy_str (QUETEXT_API_KEY Sample.cfg) = true) as Hkey
    by reflexivity.
  split; [exact Hv|]. split; [exact Hkey|].
  exact (check_success_shape Sample.cfg (Sample.env "success") b v
           Sample.plagiarism_data (Sample.world None) Hv Hkey eq_refl).
Defined.

End CheckFacts.

(** ** The payment routes *)

Module PaymentFacts.
Import Payment PaymentSpec.

(** Both sides are the same response and world, up to the bracketing of
    the trace. *)
Ltac same_run :=
  cbn beta iota delta [projects trace];
  rewrite <- ?app_assoc; reflexivity.

Lemma eqb_empty_false (s : string) : s ≠ "" -> String.eqb s "" = false.
Proof. intros H. by apply String.eqb_neq. Qed.

(** A positive number passes the price check of [initiate]. *)
Lemma positive_price_accepted (q : float) :
  (0 <? q)%float = true ->
  Js.falsy_number q || (q <=? 0)%float = false.
Proof.
  unfold Js.falsy_number, PrimFloat.is_nan, PrimFloat.is_zero.
  rewrite FloatAxioms.ltb_spec, FloatAxioms.leb_spec, !FloatAxioms.eqb_spec.
  change (Prim2SF 0) with (S754_zero false).
  change (Prim2SF zero) with (S754_zero false).
  destruct (Prim2SF q) as [s|s| |s m e]; try discriminate;
    destruct s; try discriminate.
  - reflexivity.
  - intros _. unfold SFeqb, SFleb, SFcompare.
    rewrite Z.compare_refl, Pos.compare_refl. reflexivity.
Qed.

Lemma nonpositive_price_refused (q : float) :
  (q <=? 0)%float = true ->
  Js.falsy_number q || (q <=? 0)%float = true.
Proof. intros ->. apply orb_true_r. Qed.

(** *** Initiation *)

(** The run of [initiate] on a project with an acceptable price. *)
Lemma initiate_priced (cfg : Config) (env : Env) (pid : string) (w : World)
    (p : Project) (q : float) :
  pid ≠ "" ->
  projects w !! pid = Some p ->
  price p = Some q ->
  (0 <? q)%float = true ->
  let req := initialize_request cfg env pid p q in
  let fee := (q * (TRANSACTION_FEE_PERCENTAGE / 100))%float in
  let fields d := initiated (data_reference d) fee (q + fee)%float
                    (serverTimestamp env) in
  initiate cfg env pid w =
  match paystack_initialize env req with
  | Resolved d =>
      (json_response 200
         [("success", JBool true);
          ("authorizationUrl", JStr (authorization_url d));
          ("bankAccount", JStr ACCESS_BANK_ACCOUNT);
          ("accountName", JStr "ResearchX Platform");
          ("bankName", JStr "Access Bank");
          ("amount", JNum (q + fee));
          ("transactionFee", JNum fee)],
       {| projects := <[pid := merge (fields d) p]> (projects w);
          trace := trace w ++ [FirestoreGet pid; PaystackInitialize req;
                               FirestoreUpdate pid (fields d)] |})
  | Rejected e =>
      (failure 500 (provider_message e "Payment initialization failed"),
       {| projects := projects w;
          trace := trace w ++ [FirestoreGet pid; PaystackInitialize req] |})
  end.
Proof.
  intros Hpid Hp Hq Hpos req fee fields.
  unfold initiate, try_catch, mbind, Async_bind, doc_get.
  rewrite (eqb_empty_false pid Hpid), Hp, Hq, (positive_price_accepted q Hpos).
  unfold await, log. cbn [projects trace].
  fold req. destruct (paystack_initialize env req) as [d|e].
  - unfold doc_update. cbn [projects trace]. rewrite Hp.
    unfold mret, Async_ret. rewrite <- !app_assoc. reflexivity.
  - rewrite <- !app_assoc. reflexivity.
Qed.

(** C5: when the project exists but its price is missing or not positive,
    [initiate] answers 400 with [success: false], calls no provider and
    leaves the stored projects as they were. *)
Theorem initiate_rejects_bad_price (cfg : Config) (env : Env) (pid : string)
    (w : World) (p : Project) :
  projects w !! pid = Some p ->
  (price p = None ∨ ∃ q, price p = Some q ∧ (q <=? 0)%float = true) ->
  ∃ r w' evs,
    initiate cfg env pid w = (r, w')
    ∧ statusCode r = 400
    ∧ Js.get "success" (payload r) = Some (JBool false)
    ∧ emitted w w' evs
    ∧ no_provider_call evs
    ∧ projects w' = projects w.
Proof.
  intros Hp Hprice.
  unfold initiate, try_catch, mbind, Async_bind, doc_get.
  destruct (String.eqb pid "").
  - exists (failure 400 "Invalid project ID"), w, [].
    repeat split; [apply emitted_nil | constructor].
  - rewrite Hp.
    assert (∀ msg, ∃ r w' evs,
              (failure 400 msg, log (FirestoreGet pid) w) = (r, w')
              ∧ statusCode r = 400
              ∧ Js.get "success" (payload r) = Some (JBool false)
              ∧ emitted w w' evs
              ∧ no_provider_call evs
              ∧ projects w' = projects w) as Hdone.
    { intros msg. eexists _, _, [FirestoreGet pid].
      repeat split. by repeat constructor. }
    destruct Hprice as [Hnone | (q & Hq & Hle)].
    + rewrite Hnone. apply Hdone.
    + rewrite Hq, (nonpositive_price_refused q Hle). apply Hdone.
Qed.

(** Instance: the sample project with a price of 0. *)
Lemma initiate_rejects_bad_price_witness :
  let w := Sample.world (Some 0%float) in
  projects w !! "p1" = Some (Sample.project (Some 0%float))
  ∧ (price (Sample.project (Some 0%float)) = None
     ∨ ∃ q, price (Sample.project (Some 0%float)) = Some q
            ∧ (q <=? 0)%float = true)
  ∧ ∃ r w' evs,
      initiate Sample.cfg (Sample.env "success") "p1" w = (r, w')
      ∧ statusCode r = 400
      ∧ Js.get "success" (payload r) = Some (JBool false)
      ∧ emitted w w' evs
      ∧ no_provider_call evs
      ∧ projects w' = projects w.
Proof.
  intros w.
  assert (projects w !! "p1" = Some (Sample.project (Some 0%float))) as Hp
    by (vm_compute; reflexivity).
  assert (price (Sample.project (Some 0%float)) = None
          ∨ ∃ q, price (Sample.project (Some 0%float)) = Some q
                 ∧ (q <=? 0)%float = true) as Hq.
  { right. exists 0%float. split; reflexivity. }
  split; [exact Hp|]. split; [exact Hq|].
  exact (initiate_rejects_bad_price Sample.cfg (Sample.env "success") "p1" w
           (Sample.project (Some 0%float)) Hp Hq).
Defined.

(** A price that is [NaN], or a negative one, is refused as well. *)
Example initiate_rejects_nan_and_negative :
  statusCode (initiate Sample.cfg (Sample.env "success") "p1"
                (Sample.world (Some nan))).1 = 400
  ∧ statusCode (initiate Sample.cfg (Sample.env "success") "p1"
                  (Sample.world (Some (-5)%float))).1 = 400.
Proof. split; vm_compute; reflexivity. Qed.




(** The stored record of the sample run: a price of 1000 gives a total of
    1015 and a charge of 101500 kobo. *)
Example initiate_sample_run :
  let w' := (initiate Sample.cfg (Sample.env "success") "p1"
               (Sample.world (Some 1000%float))).2 in
  stored_status w' "p1" = Some "initiated"
  ∧ (projects w' !! "p1" ≫= totalAmount) = Some 1015%float
  ∧ (∃ req, trace w' !! 1%nat = Some (PaystackInitialize req)
            ∧ amount req = 101500%float
            ∧ reference req = "RESEARCHX-p1-1714557600000").
Proof.
  vm_compute. split; [reflexivity|]. split; [reflexivity|].
  eexists. split; [reflexivity|]. split; reflexivity.
Qed.

(** On doubles a price of 1 makes a total of 101.49999999999999 kobo, which
    [Math.round] takes down: the charge is 101 kobo. *)
Example initiate_charge_for_a_price_of_one :
  ∃ req,
    trace (initiate Sample.cfg (Sample.env "success") "p1"
             (Sample.world (Some 1%float))).2 !! 1%nat
    = Some (PaystackInitialize req)
    ∧ amount req = 101%float.
Proof. eexists. vm_compute. split; reflexivity. Qed.

(** *** Verification *)

Lemma verify_guard_passed (ref : json) (pid : string) :
  Js.truthy ref = true -> pid ≠ "" ->
  negb (Js.truthy ref) || String.eqb pid "" = false.
Proof. intros -> Hpid. by rewrite (eqb_empty_false pid Hpid). Qed.

Lemma guard_passed_inv (ref : json) (pid : string) :
  negb (Js.truthy ref) || String.eqb pid "" = false ->
  Js.truthy ref = true ∧ pid ≠ "".
Proof.
  intros [H1 H2]%orb_false_iff. split.
  - by apply negb_false_iff.
  - by apply String.eqb_neq.
Qed.

(** The run of [verify] on a request the guard refuses. *)
Lemma verify_guard_refused (cfg : Config) (env : Env) (pid : string)
    (ref : json) (w : World) :
  negb (Js.truthy ref) || String.eqb pid "" = true ->
  verify cfg env pid ref w
  = (failure 400 "Missing reference or project ID", w).
Proof. intros H. unfold verify, try_catch. by rewrite H. Qed.

(** The run of [verify] when the verify call itself fails. *)
Lemma verify_call_rejected (cfg : Config) (env : Env) (pid : string)
    (ref : json) (w : World) (e : jsError) :
  Js.truthy ref = true ->
  pid ≠ "" ->
  paystack_verify env ref = Rejected e ->
  verify cfg env pid ref w
  = (failure 500 (provider_message e "Payment verification failed"),
     log (PaystackVerify ref) w).
Proof.
  intros Href Hpid Hv.
  unfold verify, try_catch, mbind, Async_bind, await.
  by rewrite (verify_guard_passed ref pid Href Hpid), Hv.
Qed.

(** The run of [verify] when the provider reports status ["success"]. *)
Lemma verify_success (cfg : Config) (env : Env) (pid : string) (ref : json)
    (w : World) (tx : TransactionData) :
  Js.truthy ref = true ->
  pid ≠ "" ->
  paystack_verify env ref = Resolved tx ->
  tx_status tx = "success" ->
  let V := PaystackVerify ref in
  let R := PaystackTransferRecipient recipient_request in
  let T code := PaystackTransfer (transfer_request pid tx code) in
  let thrown e evs :=
    (failure 500 (provider_message e "Payment verification failed"),
     {| projects := projects w; trace := trace w ++ evs |}) in
  verify cfg env pid ref w =
  match paystack_transferrecipient env recipient_request with
  | Rejected e => thrown e [V; R]
  | Resolved code =>
      match paystack_transfer env (transfer_request pid tx code) with
      | Rejected e => thrown e [V; R; T code]
      | Resolved _ =>
          match tx_authorization tx with
          | None =>
              thrown (Error "Cannot read properties of undefined")
                [V; R; T code]
          | Some auth =>
              let fields := completed tx auth (serverTimestamp env) in
              let U := FirestoreUpdate pid fields in
              match projects w !! pid with
              | None =>
                  thrown (Error "No document to update") [V; R; T code; U]
              | Some p =>
                  (json_response 200
                     [("success", JBool true);
                      ("message",
                       JStr "Payment verified and funds transferred to Access Bank");
                      ("bankAccount", JStr ACCESS_BANK_ACCOUNT);
                      ("amount", JNum (tx_amount tx / 100)%float)],
                   {| projects := <[pid := merge fields p]> (projects w);
                      trace := trace w ++ [V; R; T code; U] |})
              end
          end
      end
  end.
Proof.
  intros Href Hpid Hv Hst V R T thrown.
  unfold verify, try_catch, mbind, Async_bind.
  rewrite (verify_guard_passed ref pid Href Hpid).
  unfold await, log. cbn [projects trace]. rewrite Hv, Hst.
  cbn [String.eqb Ascii.eqb Bool.eqb andb].
  subst thrown.
  destruct (paystack_transferrecipient env recipient_request) as [code|e];
    [|same_run].
  destruct (paystack_transfer env (transfer_request pid tx code)) as [[]|e];
    [|same_run].
  destruct (tx_authorization tx) as [auth|]; [|unfold throw; same_run].
  unfold doc_update, log. cbn [projects trace].
  destruct (projects w !! pid) as [p|]; same_run.
Qed.

(** The run of [verify] when the provider reports any other status. *)
Lemma verify_not_success (cfg : Config) (env : Env) (pid : string)
    (ref : json) (w : World) (tx : TransactionData) :
  Js.truthy ref = true ->
  pid ≠ "" ->
  paystack_verify env ref = Resolved tx ->
  tx_status tx ≠ "success" ->
  let fields := failed (serverTimestamp env) in
  let evs := [PaystackVerify ref; FirestoreUpdate pid fields] in
  verify cfg env pid ref w =
  match projects w !! pid with
  | None =>
      (failure 500 "Payment verification failed",
       {| projects := projects w; trace := trace w ++ evs |})
  | Some p =>
      (failure 400 "Payment not successful",
       {| projects := <[pid := merge fields p]> (projects w);
          trace := trace w ++ evs |})
  end.
Proof.
  intros Href Hpid Hv Hst fields evs.
  unfold verify, try_catch, mbind, Async_bind.
  rewrite (verify_guard_passed ref pid Href Hpid).
  unfold await, log. cbn [projects trace]. rewrite Hv.
  apply String.eqb_neq in Hst. rewrite Hst.
  unfold doc_update, log. cbn [projects trace].
  destruct (projects w !! pid) as [p|]; same_run.
Qed.

(** Every run of [verify] is one of the cases of [verify_run]. *)
Lemma verify_runs (cfg : Config) (env : Env) (pid : string) (ref : json)
    (w : World) :
  ∃ evs, emitted w (verify cfg env pid ref w).2 evs
         ∧ PaymentVocabulary.verify_run cfg env pid ref w evs
             (projects (verify cfg env pid ref w).2)
             (verify cfg env pid ref w).1.
Proof.
  destruct (negb (Js.truthy ref) || String.eqb pid "") eqn:Hguard.
  { rewrite (verify_guard_refused cfg env pid ref w Hguard).
    exists []. split; [apply emitted_nil|].
    exact (PaymentVocabulary.run_refused cfg env pid ref w Hguard). }
  apply guard_passed_inv in Hguard as [Href Hpid].
  destruct (paystack_verify env ref) as [tx|e] eqn:Hv.
  2:{ rewrite (verify_call_rejected cfg env pid ref w e Href Hpid Hv).
      eexists. split; [reflexivity|].
      exact (PaymentVocabulary.run_unverified cfg env pid ref w e Hv). }
  destruct (String.eqb_spec (tx_status tx) "success") as [Hst|Hst].
  - rewrite (verify_success cfg env pid ref w tx Href Hpid Hv Hst).
    destruct (paystack_transferrecipient env recipient_request)
      as [code|e1] eqn:Hr.
    2:{ eexists. split; [reflexivity|].
        exact (PaymentVocabulary.run_no_recipient cfg env pid ref w tx e1
                 Hv Hst Hr). }
    destruct (paystack_transfer env (transfer_request pid tx code))
      as [[]|e2] eqn:Ht.
    2:{ eexists. split; [reflexivity|].
        exact (PaymentVocabulary.run_no_transfer cfg env pid ref w tx code e2
                 Hv Hst Hr Ht). }
    destruct (tx_authorization tx) as [auth|] eqn:Ha.
    2:{ eexists. split; [reflexivity|].
        exact (PaymentVocabulary.run_no_authorization cfg env pid ref w tx
                 code Hv Hst Hr Ht Ha). }
    pose proof (PaymentVocabulary.run_transferred cfg env pid ref w tx code
                  auth Hv Hst Hr Ht Ha) as Hrun.
    destruct (projects w !! pid) as [p|];
      eexists; (split; [reflexivity | exact Hrun]).
  - rewrite (verify_not_success cfg env pid ref w tx Href Hpid Hv Hst).
    pose proof (PaymentVocabulary.run_not_paid cfg env pid ref w tx Hv Hst)
      as Hrun.
    destruct (projects w !! pid) as [p|];
      eexists; (split; [reflexivity | exact Hrun]).
Qed.

(** C10: a verification request whose body has no reference (it reads as
    [undefined]; any falsy value does the same) or whose project id is
    empty is answered with status 400 and [success: false]; the world is
    left as it was: no provider call, no write. *)
Theorem verify_rejects_missing_input (cfg : Config) (env : Env)
    (pid : string) (ref : json) (w : World) :
  Js.truthy ref = false ∨ pid = "" ->
  ∃ r, verify cfg env pid ref w = (r, w)
       ∧ statusCode r = 400
       ∧ Js.get "success" (payload r) = Some (JBool false).
Proof.
  intros H. exists (failure 400 "Missing reference or project ID").
  unfold verify, try_catch.
  assert (negb (Js.truthy ref) || String.eqb pid "" = true) as ->.
  { destruct H as [-> | ->]; [reflexivity | apply orb_true_r]. }
  repeat split.
Qed.

(** Instance: a body without [reference]. *)
Lemma verify_rejects_missing_input_witness :
  let w := Sample.world (Some 1000%float) in
  (Js.truthy JUndefined = false ∨ "p1" = "")
  ∧ ∃ r, verify Sample.cfg (Sample.env "success") "p1" JUndefined w = (r, w)
         ∧ statusCode r = 400
         ∧ Js.get "success" (payload r) = Some (JBool false).
Proof.
  intros w.
  assert (Js.truthy JUndefined = false ∨ "p1" = "") as H
    by (left; reflexivity).
  split; [exact H|].
  exact (verify_rejects_missing_input Sample.cfg (Sample.env "success")
           "p1" JUndefined w H).
Defined.




(** A verified amount of 1015000 kobo gives a transfer of 999775 kobo. *)
Example verify_sample_transfer :
  ∃ t, trace (verify Sample.cfg (Sample.env "success") "p1"
                (JStr "RESEARCHX-p1-1") (Sample.world (Some 1000%float))).2
         !! 2%nat = Some (PaystackTransfer t)
       ∧ transfer_amount t = 999775%float
       ∧ recipient t = "RCP_1".
Proof. eexists. vm_compute. repeat split. Qed.

(** An element of a list of events, found by going through the list. *)
Ltac event_in H :=
  repeat (apply elem_of_cons in H as [H|H]; [try discriminate H|]);
  try (by apply elem_of_nil in H).

(** C1: in every run of the verification route, a write of
    [paymentStatus = "completed"] comes after the recipient creation and
    the transfer were both attempted.  When the provider reports the
    payment as successful (status ["success"]), the recipient creation is
    attempted right after the verify call and, once it resolves, the
    transfer.  If the transfer call throws, this request writes nothing,
    so the record is not marked ["completed"], and it answers 500.  When
    both calls resolve, the record of an existing project is marked
    ["completed"]. *)
Theorem verify_transfers_before_completing (cfg : Config) (env : Env)
    (pid : string) (ref : json) (w : World) :
  let r := (verify cfg env pid ref w).1 in
  let w' := (verify cfg env pid ref w).2 in
  ∃ evs,
    emitted w w' evs
    ∧ (∀ pre id fields post,
         evs = pre ++ FirestoreUpdate id fields :: post ->
         paymentStatus fields = Some "completed" ->
         existsb recipient_call pre = true ∧ existsb transfer_call pre = true)
    ∧ (∀ tx,
         Js.truthy ref = true -> pid ≠ "" ->
         paystack_verify env ref = Resolved tx ->
         tx_status tx = "success" ->
         ∃ rest,
           evs = PaystackVerify ref
                 :: PaystackTransferRecipient recipient_request :: rest
           ∧ ∀ code,
               paystack_transferrecipient env recipient_request
               = Resolved code ->
               ∃ rest',
                 rest = PaystackTransfer (transfer_request pid tx code)
                        :: rest')
    ∧ (∀ t e,
         PaystackTransfer t ∈ evs ->
         paystack_transfer env t = Rejected e ->
         statusCode r = 500 ∧ no_update evs ∧ projects w' = projects w)
    ∧ (∀ tx code auth p,
         Js.truthy ref = true -> pid ≠ "" ->
         paystack_verify env ref = Resolved tx ->
         tx_status tx = "success" ->
         paystack_transferrecipient env recipient_request = Resolved code ->
         paystack_transfer env (transfer_request pid tx code) = Resolved () ->
         tx_authorization tx = Some auth ->
         projects w !! pid = Some p ->
         statusCode r = 200 ∧ stored_status w' pid = Some "completed").
Proof.
  intros r w'. subst r w'. unfold stored_status.
  destruct (verify_runs cfg env pid ref w) as (evs & Hevs & Hrun).
  exists evs. split; [exact Hevs|].
  destruct Hrun as [Hguard|e Hv|tx Hv Hst|tx e Hv Hst Hr|tx code e Hv Hst Hr Ht
                    |tx code Hv Hst Hr Ht Ha|tx code auth Hv Hst Hr Ht Ha].
  - (* refused *)
    split; [intros pre id fields post Hsplit; by destruct pre|].
    split; [intros tx Href Hpid;
            by rewrite (verify_guard_passed ref pid Href Hpid) in Hguard|].
    split; [intros t e Hin; event_in Hin|].
    intros tx code auth p Href Hpid.
    by rewrite (verify_guard_passed ref pid Href Hpid) in Hguard.
  - (* the verify call failed *)
    split; [intros pre id fields post Hsplit;
            do 1 (destruct pre as [|? pre]; simplify_eq/=); by destruct pre|].
    split; [intros tx _ _ Hv'; congruence|].
    split; [intros t e' Hin; event_in Hin|].
    intros tx code auth p _ _ Hv'. congruence.
  - (* not paid *)
    split.
    { intros pre id fields post Hsplit Hdone.
      do 2 (destruct pre as [|? pre]; simplify_eq/=); by destruct pre. }
    split; [intros tx' _ _ Hv' Hst'; congruence|].
    split; [intros t e' Hin; event_in Hin|].
    intros tx' code auth p _ _ Hv' Hst'. congruence.
  - (* no recipient *)
    split; [intros pre id fields post Hsplit;
            do 2 (destruct pre as [|? pre]; simplify_eq/=); by destruct pre|].
    split.
    { intros tx' _ _ Hv' _. eexists. split; [reflexivity|].
      intros code Hr'. congruence. }
    split; [intros t e' Hin; event_in Hin|].
    intros tx' code auth p _ _ _ _ Hr'. congruence.
  - (* the transfer call failed *)
    split; [intros pre id fields post Hsplit;
            do 3 (destruct pre as [|? pre]; simplify_eq/=); by destruct pre|].
    split.
    { intros tx' _ _ Hv' _. assert (tx' = tx) as -> by congruence.
      eexists. split; [reflexivity|].
      intros code' Hr'. assert (code' = code) as -> by congruence.
      by eexists. }
    split.
    { intros t e' _ _. split; [reflexivity|].
      split; [by repeat constructor | reflexivity]. }
    intros tx' code' auth p _ _ Hv' _ Hr' Ht'.
    assert (tx' = tx) as -> by congruence.
    assert (code' = code) as -> by congruence. congruence.
  - (* no authorization *)
    split; [intros pre id fields post Hsplit;
            do 3 (destruct pre as [|? pre]; simplify_eq/=); by destruct pre|].
    split.
    { intros tx' _ _ Hv' _. assert (tx' = tx) as -> by congruence.
      eexists. split; [reflexivity|].
      intros code' Hr'. assert (code' = code) as -> by congruence.
      by eexists. }
    split.
    { intros t e' Hin Ht'. event_in Hin. injection Hin as ->. congruence. }
    intros tx' code' auth p _ _ Hv' _ _ _ Ha'.
    assert (tx' = tx) as -> by congruence. congruence.
  - (* transferred *)
    split.
    { intros pre id fields post Hsplit _.
      do 4 (destruct pre as [|? pre]; simplify_eq/=; try done). }
    split.
    { intros tx' _ _ Hv' _. assert (tx' = tx) as -> by congruence.
      eexists. split; [reflexivity|].
      intros code' Hr'. assert (code' = code) as -> by congruence.
      by eexists. }
    split.
    { intros t e' Hin Ht'. event_in Hin. injection Hin as ->. congruence. }
    intros tx' code' auth' p _ _ Hv' _ Hr' _ Ha' Hp.
    assert (tx' = tx) as -> by congruence.
    assert (auth' = auth) as -> by congruence.
    rewrite Hp. split; [reflexivity|].
    rewrite lookup_insert_eq. reflexivity.
Qed.

(** The whole chain on the sample project. *)
Example verify_sample_run :
  let ref := JStr "RESEARCHX-p1-1" in
  let env := Sample.env "success" in
  let run := verify Sample.cfg env "p1" ref (Sample.world (Some 1000%float)) in
  map provider_call (trace run.2) = [true; true; true; false]
  ∧ statusCode run.1 = 200
  ∧ stored_status run.2 "p1" = Some "completed".
Proof. vm_compute. repeat split. Qed.

(** The transfer call times out: verify, recipient and transfer were
    attempted, nothing is written and the answer is 500. *)
Example verify_sample_transfer_failure :
  let run := verify Sample.cfg Sample.env_transfer_fails "p1"
               (JStr "RESEARCHX-p1-1") (Sample.world (Some 1000%float)) in
  map provider_call (trace run.2) = [true; true; true]
  ∧ statusCode run.1 = 500
  ∧ projects run.2 = projects (Sample.world (Some 1000%float)).
Proof. vm_compute. repeat split. Qed.

(** C4, as stated, fails: ["success"] is a status other than
    ["successful"], and on it the route transfers the funds, marks the
    record ["completed"] and answers 200. *)
Lemma verify_success_is_not_marked_failed :
  let ref := JStr "RESEARCHX-p1-1" in
  let env := Sample.env "success" in
  let run := verify Sample.cfg env "p1" ref (Sample.world (Some 1000%float)) in
  (∃ tx, paystack_verify env ref = Resolved tx
         ∧ tx_status tx ≠ "successful")
  ∧ statusCode run.1 = 200
  ∧ stored_status run.2 "p1" = Some "completed"
  ∧ existsb recipient_call (trace run.2) = true
  ∧ existsb transfer_call (trace run.2) = true.
Proof.
  intros ref env run. split; [eexists; split; [reflexivity|discriminate]|].
  vm_compute. repeat split.
Qed.

(** C4, amended: when the verify call resolves with a status other than
    ["success"], the record of the (existing) project gets
    [paymentStatus = "failed"], the route answers 400 with
    [success: false], and neither the recipient creation nor the transfer
    is attempted. *)
Theorem verify_marks_failed (cfg : Config) (env : Env) (pid : string)
    (ref : json) (w : World) (tx : TransactionData) (p : Project) :
  Js.truthy ref = true ->
  pid ≠ "" ->
  paystack_verify env ref = Resolved tx ->
  tx_status tx ≠ "success" ->
  projects w !! pid = Some p ->
  ∃ r w' evs,
    verify cfg env pid ref w = (r, w')
    ∧ statusCode r = 400
    ∧ Js.get "success" (payload r) = Some (JBool false)
    ∧ stored_status w' pid = Some "failed"
    ∧ emitted w w' evs
    ∧ no_transfer_attempt evs.
Proof.
  intros Href Hpid Hv Hst Hp.
  rewrite (verify_not_success cfg env pid ref w tx Href Hpid Hv Hst), Hp.
  eexists _, _, _. split; [reflexivity|].
  split; [reflexivity|]. split; [reflexivity|].
  split; [|split; [reflexivity | by repeat constructor]].
  unfold stored_status. cbn [projects]. by rewrite lookup_insert_eq.
Qed.

(** Instance: the provider reports the status ["abandoned"]. *)
Lemma verify_marks_failed_witness :
  let ref := JStr "RESEARCHX-p1-1" in
  let env := Sample.env "abandoned" in
  let w := Sample.world (Some 1000%float) in
  Js.truthy ref = true
  ∧ "p1" ≠ ""
  ∧ tx_status (Sample.transaction "abandoned") ≠ "success"
  ∧ ∃ r w' evs,
      verify Sample.cfg env "p1" ref w = (r, w')
      ∧ statusCode r = 400
      ∧ Js.get "success" (payload r) = Some (JBool false)
      ∧ stored_status w' "p1" = Some "failed"
      ∧ emitted w w' evs
      ∧ no_transfer_attempt evs.
Proof.
  intros ref env w.
  assert (Js.truthy ref = true) as Href by reflexivity.
  assert ("p1" ≠ "") as Hpid by discriminate.
  assert (tx_status (Sample.transaction "abandoned") ≠ "success") as Hst
    by discriminate.
  assert (projects w !! "p1" = Some (Sample.project (Some 1000%float))) as Hp
    by (vm_compute; reflexivity).
  split; [exact Href|]. split; [exact Hpid|]. split; [exact Hst|].
  exact (verify_marks_failed Sample.cfg env "p1" ref w
           (Sample.transaction "abandoned") _ Href Hpid eq_refl Hst Hp).
Defined.

End PaymentFacts.

(** ** The shape of failures *)

Module EnvelopeFacts.
Import PlagiarismFacts.

Lemma or_str_nonempty (o : option string) (d : string) :
  d ≠ "" -> Js.or_str o d ≠ "".
Proof.
  intros Hd. unfold Js.or_str. destruct o as [s|]; [|done].
  destruct (String.eqb_spec s ""); done.
Qed.

Lemma failure_envelope (c : Z) (msg : string) :
  msg ≠ "" -> error_envelope (payload (Payment.failure c msg)).
Proof. intros Hmsg. split; [reflexivity|]. by exists msg. Qed.

Lemma provider_message_nonempty (e : jsError) (fallback : string) :
  fallback ≠ "" -> Payment.provider_message e fallback ≠ "".
Proof.
  intros Hf. unfold Payment.provider_message.
  destruct (response e); [by apply or_str_nonempty | done].
Qed.

(** The response at hand is a [failure] whose message is a literal or a
    provider message with a literal fallback. *)
Ltac failed_with_envelope :=
  right; apply failure_envelope;
  first [ discriminate | by apply provider_message_nonempty ].

Lemma check_failed_envelope (cfg : Config) (e : jsError) (r : Response) :
  Plagiarism.check_failed cfg e = Some r -> error_envelope (payload r).
Proof.
  unfold Plagiarism.check_failed, res_status_json. intros H.
  destruct (response e) as [er|];
    [destruct (data er) as [|msg]; [discriminate H|] | destruct (request e)];
    destruct (_ && _) in H; simplify_eq;
    (split; [reflexivity|]); eexists; (split; [reflexivity|]);
    try discriminate.
  by apply or_str_nonempty.
Qed.

Lemma check_envelope (cfg : Config) (env : Env) (b : Plagiarism.Body)
    (w : World) (r : Response) :
  (Plagiarism.check cfg env b w).1 = Some r ->
  success_response r ∨ error_envelope (payload r).
Proof.
  unfold Plagiarism.check.
  destruct (Plagiarism.validateTextInput b) as [r'|v] eqn:Hv.
  - intros [= <-]. right. by apply validateTextInput_inl in Hv as [_ ?].
  - unfold Plagiarism.check_handler, try_catch, mbind, Async_bind, await, throw.
    destruct (Js.truthy_str (QUETEXT_API_KEY cfg)); cbn [negb];
      [|intros H; right; exact (check_failed_envelope cfg _ r H)].
    destruct (quetext_plagiarism env _ _ _) as [d|e];
      [|intros H; right; exact (check_failed_envelope cfg _ r H)].
    intros [= <-]. left. by destruct (Js.truthy _).
Qed.

Lemma initiate_envelope (cfg : Config) (env : Env) (pid : string)
    (w : World) :
  let r := (Payment.initiate cfg env pid w).1 in
  success_response r ∨ error_envelope (payload r).
Proof.
  unfold Payment.initiate, try_catch, mbind, Async_bind, doc_get, await,
    doc_update, mret, Async_ret.
  destruct (String.eqb pid ""); [failed_with_envelope|].
  destruct (projects w !! pid) as [p|] eqn:Hp; [|failed_with_envelope].
  destruct (price p) as [q|]; [|failed_with_envelope].
  destruct (Js.falsy_number q || (q <=? 0)%float); [failed_with_envelope|].
  destruct (paystack_initialize env _) as [d|e]; [|failed_with_envelope].
  cbn [log projects]. rewrite Hp. by left.
Qed.

Lemma verify_envelope (cfg : Config) (env : Env) (pid : string) (ref : json)
    (w : World) :
  let r := (Payment.verify cfg env pid ref w).1 in
  success_response r ∨ error_envelope (payload r).
Proof.
  unfold Payment.verify, try_catch, mbind, Async_bind, await, doc_update,
    mret, Async_ret.
  destruct (negb (Js.truthy ref) || String.eqb pid "");
    [failed_with_envelope|].
  destruct (paystack_verify env ref) as [tx|e]; [|failed_with_envelope].
  cbn [log projects].
  destruct (String.eqb (tx_status tx) "success").
  - destruct (paystack_transferrecipient env _) as [code|e];
      [|failed_with_envelope].
    destruct (paystack_transfer env _) as [[]|e]; [|failed_with_envelope].
    destruct (tx_authorization tx) as [auth|];
      [|unfold throw; failed_with_envelope].
    cbn [log projects].
    destruct (projects w !! pid); [by left | failed_with_envelope].
  - cbn [log projects].
    destruct (projects w !! pid); failed_with_envelope.
Qed.

Lemma signup_bare_error (env : Env) (req : Signup.Request) (w : World) :
  let r := (Signup.signup env req w).1 in
  statusCode r = 200 ∨ bare_error (payload r).
Proof.
  unfold Signup.signup, try_catch, mbind, Async_bind, await, mret,
    Async_ret.
  assert (∀ c msg, bare_error (payload (json_response c [("error", JStr msg)])))
    as Hbare by (intros c msg; split; [reflexivity | by eexists]).
  destruct (negb (String.eqb (Signup.method req) "POST"));
    [right; apply Hbare|].
  destruct (negb (Js.truthy _) || negb (Js.truthy _));
    [right; apply Hbare|].
  destruct (supabase_signUp env _ _) as [res|e]; [|right; apply Hbare].
  destruct (error_message res); [right; apply Hbare | by left].
Qed.

(** C7, as stated, fails: the signup handler answers a [GET] with 405 and
    [{ error }] alone, and [errorHandler] answers with
    [{ status: 'error', message }]; neither holds [success: false]. *)
Lemma signup_error_without_success_flag :
  let r := (Signup.signup (Sample.env "success")
              {| Signup.method := "GET"; Signup.body := None |}
              (Sample.world None)).1 in
  let r' := ErrorHandler.errorHandler Sample.cfg
              {| ErrorHandler.err_statusCode := Some 502;
                 ErrorHandler.err_message := "upstream";
                 ErrorHandler.err_stack := "Error: upstream";
                 ErrorHandler.err_details := JUndefined |} in
  (statusCode r = 405
   ∧ Js.get "success" (payload r) = None
   ∧ ¬ error_envelope (payload r))
  ∧ (∃ a, r' = Some a
          ∧ statusCode a = 502
          ∧ Js.get "success" (payload a) = None
          ∧ Js.get "error" (payload a) = None
          ∧ ¬ error_envelope (payload a)).
Proof.
  intros r r'. split.
  - vm_compute. repeat split. intros [H _]; discriminate H.
  - eexists. split; [vm_compute; reflexivity|].
    repeat split. intros [H _]; discriminate H.
Qed.

(** C7, amended: every response the plagiarism check route sends (its
    validation middleware included) and every response of the two payment
    routes that is not the 200 answer with [success: true] holds
    [success: false] and a non-empty [error] string; a failure of the
    signup handler holds an [error] string and no [success] member. *)
Theorem route_failures_use_envelope (cfg : Config) (env : Env) (w : World) :
  (∀ b r, (Plagiarism.check cfg env b w).1 = Some r ->
          success_response r ∨ error_envelope (payload r))
  ∧ (∀ pid, let r := (Payment.initiate cfg env pid w).1 in
            success_response r ∨ error_envelope (payload r))
  ∧ (∀ pid ref, let r := (Payment.verify cfg env pid ref w).1 in
                success_response r ∨ error_envelope (payload r))
  ∧ (∀ req, let r := (Signup.signup env req w).1 in
            statusCode r = 200 ∨ bare_error (payload r)).
Proof.
  split; [intros b r; apply check_envelope|].
  split; [intros pid; apply initiate_envelope|].
  split; [intros pid ref; apply verify_envelope|].
  intros req. apply signup_bare_error.
Qed.

(** The body of the rate limiter is in the envelope as well. *)
Example apiLimiter_message_envelope :
  error_envelope Plagiarism.apiLimiter_message.
Proof. split; [reflexivity|]. by eexists. Qed.

(** The 503 of the status route holds an [error] string but no [success]
    member either. *)
Example status_route_unavailable :
  let env := Sample.env "success" in
  let down :=
    {| quetext_plagiarism := quetext_plagiarism env;
       quetext_status := Rejected Sample.network_error;
       paystack_initialize := paystack_initialize env;
       paystack_verify := paystack_verify env;
       paystack_transferrecipient := paystack_transferrecipient env;
       paystack_transfer := paystack_transfer env;
       supabase_signUp := supabase_signUp env;
       Date_now := Date_now env;
       serverTimestamp := serverTimestamp env |} in
  let r := (Plagiarism.status_route Sample.cfg down (Sample.world None)).1 in
  statusCode r = 503 ∧ bare_error (payload r).
Proof. vm_compute. repeat split. by eexists. Qed.

End EnvelopeFacts.

(** * Further properties of the routes *)

(** ** The plagiarism check, beyond validation *)

Module CheckMore.
Import Plagiarism PlagiarismFacts CheckVocabulary.

(** The run of [check] on a request that passed validation. *)
Lemma check_validated (cfg : Config) (env : Env) (b : Body) (v : Validated)
    (w : World) :
  validateTextInput b = inr v ->
  check cfg env b w =
  if Js.truthy_str (QUETEXT_API_KEY cfg)
  then
    match quetext_plagiarism env (validatedText v) (req_language v)
            (if Js.truthy (detailed b) then 1 else 0) with
    | Resolved d =>
        (Some (json_response 200
                 ([("success", JBool true);
                   ("score", score d);
                   ("plagiarism", plagiarism d);
                   ("warnings", Js.or (warnings d) (JArr []));
                   ("language", req_language v)]
                  ++ (if Js.truthy (detailed b)
                      then [("matches", Js.or (matches d) (JArr []))]
                      else []))),
         log (provider_call_of b v) w)
    | Rejected e => (check_failed cfg e, log (provider_call_of b v) w)
    end
  else
    (check_failed cfg (Error "Plagiarism check service is not configured"), w).
Proof.
  intros Hv. unfold check. rewrite Hv.
  unfold check_handler, try_catch, provider_call_of.
  destruct (Js.truthy_str (QUETEXT_API_KEY cfg)); cbn [negb]; [|reflexivity].
  unfold mbind, Async_bind, await.
  rewrite CheckFacts.truthy_default_false.
  destruct (quetext_plagiarism env _ _ _) as [d|e]; [|reflexivity].
  destruct (Js.truthy (detailed b)); reflexivity.
Qed.

(** A language the validator lets through. *)
Lemma includes_supported (v : json) :
  Js.includes SUPPORTED_LANGUAGES (Js.default_to (JStr "en") v) = true
  ↔ v = JUndefined ∨ ∃ l, l ∈ SUPPORTED_LANGUAGES ∧ v = JStr l.
Proof.
  split.
  - intros H. destruct v; try (by left); try discriminate H.
    right. apply bool_decide_eq_true in H. eauto.
  - intros [-> | (l & Hl & ->)]; [reflexivity|].
    by apply bool_decide_eq_true.
Qed.

(** What the middleware hands on is the submitted text and the language of
    the request. *)
Lemma validated_is_submitted (b : Body) (v : Validated) :
  validateTextInput b = inr v ->
  ∃ s, text b = JStr s
       ∧ v = {| validatedText := s;
                req_language := Js.default_to (JStr "en") (language b) |}.
Proof.
  intros Hv.
  apply validateTextInput_inr in Hv as (s & Ht & [_ Hmax] & _ & ->).
  exists s. by rewrite js_substring_whole.
Qed.

(** X1: the middleware lets a request through exactly when its text is a
    string of 100 to 10000 characters, both bounds included, and its
    language is absent or one of the supported codes; the validated text is
    then the submitted one and the language defaults to ["en"]. *)
Theorem validateTextInput_accepts_exactly (b : Body) (v : Validated) :
  validateTextInput b = inr v
  ↔ ∃ s, text b = JStr s
         ∧ MIN_TEXT_LENGTH <= Js.length s <= MAX_TEXT_LENGTH
         ∧ (language b = JUndefined
            ∨ ∃ l, l ∈ SUPPORTED_LANGUAGES ∧ language b = JStr l)
         ∧ v = {| validatedText := s;
                  req_language := Js.default_to (JStr "en") (language b) |}.
Proof.
  split.
  - intros Hv.
    apply validateTextInput_inr in Hv as (s & Ht & Hlen & Hl & ->).
    exists s. rewrite js_substring_whole by lia.
    repeat split; try done; try lia. by apply includes_supported.
  - intros (s & Ht & [Hmin Hmax] & Hl & ->).
    apply includes_supported in Hl.
    unfold validateTextInput. rewrite Ht. cbn [Js.truthy Js.typeof chars].
    assert (s ≠ "") as Hne.
    { intros ->. unfold MIN_TEXT_LENGTH, Js.length in Hmin. simpl in Hmin. lia. }
    apply String.eqb_neq in Hne. rewrite Hne. cbn [negb orb String.eqb].
    cbn.
    destruct (Z.ltb_spec (Js.length s) MIN_TEXT_LENGTH); [lia|].
    destruct (Z.ltb_spec MAX_TEXT_LENGTH (Js.length s)); [lia|].
    rewrite Hl. cbn [negb]. by rewrite js_substring_whole.
Qed.

(** A text of exactly 10000 characters passes, although the message of the
    upper bound reads "less than 10000". *)
Example validateTextInput_accepts_the_maximum :
  validateTextInput
    {| text := JStr (CheckSpec.filler (Z.to_nat 10000));
       language := JStr "de"; detailed := JUndefined |}
  = inr {| validatedText := CheckSpec.filler (Z.to_nat 10000);
           req_language := JStr "de" |}.
Proof. vm_compute. reflexivity. Qed.

(** X2: without a configured API key a valid request is answered with
    status 500 and the generic message; the provider is not called and the
    world stays as it was. *)
Theorem check_unconfigured (cfg : Config) (env : Env) (b : Body)
    (v : Validated) (w : World) :
  validateTextInput b = inr v ->
  Js.truthy_str (QUETEXT_API_KEY cfg) = false ->
  ∃ r, check cfg env b w = (Some r, w)
       ∧ statusCode r = 500
       ∧ Js.get "success" (payload r) = Some (JBool false)
       ∧ Js.get "error" (payload r) = Some (JStr "Plagiarism check failed").
Proof.
  intros Hv Hkey. rewrite (check_validated cfg env b v w Hv), Hkey.
  eexists. repeat split.
Qed.

(** Instance: the sample text, no key in the environment. *)
Lemma check_unconfigured_witness :
  let w := Sample.world None in
  validateTextInput Outside.body = inr Outside.validated
  ∧ Js.truthy_str (QUETEXT_API_KEY Outside.unconfigured) = false
  ∧ ∃ r, check Outside.unconfigured (Sample.env "success") Outside.body w
           = (Some r, w)
         ∧ statusCode r = 500
         ∧ Js.get "success" (payload r) = Some (JBool false)
         ∧ Js.get "error" (payload r) = Some (JStr "Plagiarism check failed").
Proof.
  intros w.
  assert (validateTextInput Outside.body = inr Outside.validated) as Hv
    by (vm_compute; reflexivity).
  split; [exact Hv|]. split; [reflexivity|].
  exact (check_unconfigured Outside.unconfigured (Sample.env "success")
           Outside.body Outside.validated w Hv eq_refl).
Defined.

(** X3: when the provider answers with an error status, the catch block
    reads the message of the answer's body.  If that body is [null] the
    read throws and the request is left without an answer, and so it is
    when the provider's status is not one an answer can carry.  Otherwise
    the route answers with the provider's status; its [error] is the
    provider's message when there is a non-empty one, and "API error: "
    followed by the status text otherwise. *)
Theorem check_forwards_provider_error (cfg : Config) (env : Env) (b : Body)
    (v : Validated) (w : World) (e : jsError) (er : ErrorResponse) :
  validateTextInput b = inr v ->
  Js.truthy_str (QUETEXT_API_KEY cfg) = true ->
  quetext_plagiarism env (validatedText v) (req_language v)
    (if Js.truthy (detailed b) then 1 else 0) = Rejected e ->
  response e = Some er ->
  let a := (check cfg env b w).1 in
  (data er = NullData -> a = None)
  ∧ (¬ (100 <= status er <= 999) -> a = None)
  ∧ (∀ msg,
       data er = Data msg ->
       100 <= status er <= 999 ->
       ∃ r, a = Some r
            ∧ statusCode r = status er
            ∧ Js.get "success" (payload r) = Some (JBool false)
            ∧ (∀ m, msg = Some m -> m ≠ "" ->
                    Js.get "error" (payload r) = Some (JStr m))
            ∧ (msg = None ∨ msg = Some "" ->
               Js.get "error" (payload r)
               = Some (JStr ("API error: " +:+ statusText er)))).
Proof.
  intros Hv Hkey Hcall Her a. subst a.
  rewrite (check_validated cfg env b v w Hv), Hkey, Hcall.
  unfold check_failed, res_status_json. rewrite Her. cbn [fst].
  split; [by intros ->|]. split.
  - intros Hout. destruct (data er); [reflexivity|].
    destruct (Z.leb_spec 100 (status er)); [|reflexivity].
    destruct (Z.leb_spec (status er) 999); [lia | reflexivity].
  - intros msg -> [Hlo Hhi].
    apply Z.leb_le in Hlo, Hhi. rewrite Hlo, Hhi. cbn [andb].
    eexists. split; [reflexivity|].
    cbn [statusCode payload json_response].
    split; [reflexivity|]. split; [reflexivity|]. split.
    + intros m -> Hm%String.eqb_neq. cbn. by rewrite Hm.
    + intros [-> | ->]; reflexivity.
Qed.

(** Instance: the provider answers 429 with a message. *)
Lemma check_forwards_provider_error_witness :
  let env := Outside.plagiarism_failing Outside.too_many_requests in
  let a := (check Sample.cfg env Outside.body (Sample.world None)).1 in
  let er := {| status := 429; statusText := "Too Many Requests";
               data := Data (Some "Rate limit exceeded") |} in
  validateTextInput Outside.body = inr Outside.validated
  ∧ Js.truthy_str (QUETEXT_API_KEY Sample.cfg) = true
  ∧ response Outside.too_many_requests = Some er
  ∧ (data er = NullData -> a = None)
  ∧ (¬ (100 <= status er <= 999) -> a = None)
  ∧ (∀ msg,
       data er = Data msg ->
       100 <= status er <= 999 ->
       ∃ r, a = Some r
            ∧ statusCode r = status er
            ∧ Js.get "success" (payload r) = Some (JBool false)
            ∧ (∀ m, msg = Some m -> m ≠ "" ->
                    Js.get "error" (payload r) = Some (JStr m))
            ∧ (msg = None ∨ msg = Some "" ->
               Js.get "error" (payload r)
               = Some (JStr ("API error: " +:+ statusText er)))).
Proof.
  intros env a er.
  assert (validateTextInput Outside.body = inr Outside.validated) as Hv
    by (vm_compute; reflexivity).
  split; [exact Hv|]. split; [reflexivity|]. split; [reflexivity|].
  exact (check_forwards_provider_error Sample.cfg env Outside.body
           Outside.validated (Sample.world None) Outside.too_many_requests
           er Hv eq_refl eq_refl eq_refl).
Defined.

(** The answers to the three sample errors of the provider: a 429 with a
    message, a 503 whose body has no message, a 502 whose body is
    [null]. *)
Example check_provider_error_samples :
  let answer e :=
    (check Sample.cfg (Outside.plagiarism_failing e) Outside.body
       (Sample.world None)).1 in
  (∃ r, answer Outside.too_many_requests = Some r
        ∧ statusCode r = 429
        ∧ Js.get "error" (payload r) = Some (JStr "Rate limit exceeded"))
  ∧ (∃ r, answer Outside.unavailable = Some r
          ∧ statusCode r = 503
          ∧ Js.get "error" (payload r)
            = Some (JStr "API error: Service Unavailable"))
  ∧ answer Outside.bad_gateway = None.
Proof.
  intros answer.
  split; [eexists; split; [vm_compute; reflexivity | split; reflexivity]|].
  split; [eexists; split; [vm_compute; reflexivity | split; reflexivity]|].
  vm_compute. reflexivity.
Qed.

(** X4: when the provider call fails without a response, the route answers
    500; the message tells a request that got no answer ("No response from
    plagiarism service") from any other failure ("Plagiarism check
    failed"), and the error's own message is in [details] exactly when
    [NODE_ENV] is ["development"]. *)
Theorem check_failure_without_response (cfg : Config) (env : Env) (b : Body)
    (v : Validated) (w : World) (e : jsError) :
  validateTextInput b = inr v ->
  Js.truthy_str (QUETEXT_API_KEY cfg) = true ->
  quetext_plagiarism env (validatedText v) (req_language v)
    (if Js.truthy (detailed b) then 1 else 0) = Rejected e ->
  response e = None ->
  ∃ r,
    (check cfg env b w).1 = Some r
    ∧ statusCode r = 500
    ∧ Js.get "error" (payload r)
      = Some (JStr (if request e then "No response from plagiarism service"
                    else "Plagiarism check failed"))
    ∧ (NODE_ENV cfg = Some "development" ->
       Js.get "details" (payload r) = Some (JStr (message e)))
    ∧ (NODE_ENV cfg ≠ Some "development" ->
       Js.get "details" (payload r) = Some JUndefined).
Proof.
  intros Hv Hkey Hcall Her.
  rewrite (check_validated cfg env b v w Hv), Hkey, Hcall.
  unfold check_failed. rewrite Her.
  destruct (request e); (eexists; split; [reflexivity|]);
    cbn [statusCode payload json_response];
    (split; [reflexivity|]); (split; [reflexivity|]);
    (split; intros Hdev; cbn;
     [rewrite bool_decide_eq_true_2 by done
     |rewrite bool_decide_eq_false_2 by done]; reflexivity).
Qed.

(** Instance: a timeout, in production. *)
Lemma check_failure_without_response_witness :
  let env := Outside.plagiarism_failing Sample.network_error in
  validateTextInput Outside.body = inr Outside.validated
  ∧ Js.truthy_str (QUETEXT_API_KEY Sample.cfg) = true
  ∧ response Sample.network_error = None
  ∧ ∃ r,
      (check Sample.cfg env Outside.body (Sample.world None)).1 = Some r
      ∧ statusCode r = 500
      ∧ Js.get "error" (payload r)
        = Some (JStr (if request Sample.network_error
                      then "No response from plagiarism service"
                      else "Plagiarism check failed"))
      ∧ (NODE_ENV Sample.cfg = Some "development" ->
         Js.get "details" (payload r)
         = Some (JStr (message Sample.network_error)))
      ∧ (NODE_ENV Sample.cfg ≠ Some "development" ->
         Js.get "details" (payload r) = Some JUndefined).
Proof.
  intros env.
  assert (validateTextInput Outside.body = inr Outside.validated) as Hv
    by (vm_compute; reflexivity).
  split; [exact Hv|]. split; [reflexivity|]. split; [reflexivity|].
  exact (check_failure_without_response Sample.cfg env Outside.body
           Outside.validated (Sample.world None) Sample.network_error
           Hv eq_refl eq_refl eq_refl).
Defined.

(** X5: whatever the request and the outside, [POST /check] issues at most
    one outbound call; that call goes to the plagiarism endpoint with the
    submitted text, the language of the request (["en"] when none is
    given) and [scan] set to 1 exactly when [detailed] is truthy.  The
    stored projects are never touched. *)
Theorem check_calls_once (cfg : Config) (env : Env) (b : Body) (w : World) :
  let w' := (check cfg env b w).2 in
  projects w' = projects w
  ∧ (emitted w w' []
     ∨ ∃ s, text b = JStr s
            ∧ emitted w w'
                [QuetextPlagiarism s (Js.default_to (JStr "en") (language b))
                   (if Js.truthy (detailed b) then 1 else 0)]).
Proof.
  destruct (validateTextInput b) as [r|v] eqn:Hv.
  - unfold check. rewrite Hv. split; [reflexivity|]. left. apply emitted_nil.
  - rewrite (check_validated cfg env b v w Hv).
    apply validated_is_submitted in Hv as (s & Ht & ->).
    unfold provider_call_of. cbn [validatedText req_language].
    destruct (Js.truthy_str (QUETEXT_API_KEY cfg)).
    + destruct (quetext_plagiarism env _ _ _);
        (split; [reflexivity|]); right; exists s; (split; [done|]);
        apply emitted_log.
    + split; [reflexivity|]. left. apply emitted_nil.
Qed.

(** X6: in the answer to a request that went through, [language] is the
    language of the request, ["en"] when none was given, and [warnings] is
    never missing: it is the provider's value or, when that is absent or
    falsy, an empty array.  The same holds for [matches] when [detailed]
    is truthy. *)
Theorem check_success_defaults (cfg : Config) (env : Env) (b : Body)
    (v : Validated) (d : PlagiarismData) (w : World) :
  validateTextInput b = inr v ->
  Js.truthy_str (QUETEXT_API_KEY cfg) = true ->
  quetext_plagiarism env (validatedText v) (req_language v)
    (if Js.truthy (detailed b) then 1 else 0) = Resolved d ->
  ∃ r,
    (check cfg env b w).1 = Some r
    ∧ Js.get "language" (payload r)
      = Some (Js.default_to (JStr "en") (language b))
    ∧ (∃ x, Js.get "warnings" (payload r) = Some x
            ∧ Js.truthy x = true
            ∧ (Js.truthy (warnings d) = true -> x = warnings d)
            ∧ (Js.truthy (warnings d) = false -> x = JArr []))
    ∧ (Js.truthy (detailed b) = true ->
       ∃ x, Js.get "matches" (payload r) = Some x
            ∧ Js.truthy x = true
            ∧ (Js.truthy (matches d) = true -> x = matches d)
            ∧ (Js.truthy (matches d) = false -> x = JArr [])).
Proof.
  intros Hv Hkey Hd.
  rewrite (check_validated cfg env b v w Hv), Hkey, Hd.
  apply validated_is_submitted in Hv as (s & _ & ->).
  eexists. split; [reflexivity|].
  cbn [fst payload json_response req_language].
  assert (∀ x, ∃ y, Js.or x (JArr []) = y
                    ∧ Js.truthy y = true
                    ∧ (Js.truthy x = true -> y = x)
                    ∧ (Js.truthy x = false -> y = JArr [])) as Hor.
  { intros x. unfold Js.or. destruct (Js.truthy x) eqn:Hx; eexists;
      repeat split; try done. }
  split; [reflexivity|]. split.
  - destruct (Hor (warnings d)) as (y & Hy & ?). exists y. by rewrite <- Hy at 1.
  - intros Hdet. rewrite Hdet.
    destruct (Hor (matches d)) as (y & Hy & ?). exists y. by rewrite <- Hy at 1.
Qed.

(** Instance: the provider sends neither warnings nor matches. *)
Lemma check_success_defaults_witness :
  let b := {| text := JStr Sample.text; language := JUndefined;
              detailed := JBool true |} in
  let d := Sample.plagiarism_data in
  validateTextInput b = inr Outside.validated
  ∧ Js.truthy_str (QUETEXT_API_KEY Sample.cfg) = true
  ∧ ∃ r,
      (check Sample.cfg (Sample.env "success") b (Sample.world None)).1
      = Some r
      ∧ Js.get "language" (payload r)
        = Some (Js.default_to (JStr "en") (language b))
      ∧ (∃ x, Js.get "warnings" (payload r) = Some x
              ∧ Js.truthy x = true
              ∧ (Js.truthy (warnings d) = true -> x = warnings d)
              ∧ (Js.truthy (warnings d) = false -> x = JArr []))
      ∧ (Js.truthy (detailed b) = true ->
         ∃ x, Js.get "matches" (payload r) = Some x
              ∧ Js.truthy x = true
              ∧ (Js.truthy (matches d) = true -> x = matches d)
              ∧ (Js.truthy (matches d) = false -> x = JArr [])).
Proof.
  intros b d.
  assert (validateTextInput b = inr Outside.validated) as Hv
    by (vm_compute; reflexivity).
  split; [exact Hv|]. split; [reflexivity|].
  exact (check_success_defaults Sample.cfg (Sample.env "success") b
           Outside.validated d (Sample.world None) Hv eq_refl eq_refl).
Defined.

End CheckMore.

(** ** The status route *)

Module StatusFacts.
Import Plagiarism.

(** X7: the status route reports [disabled], without probing, when no API
    key is configured.  With a key it probes the provider once and reports
    [operational], with the provider's answer and the bounds the validator
    enforces, when the probe resolves, and 503 [unavailable] with a fixed
    message when it fails. *)
Theorem status_route_reports (cfg : Config) (env : Env) (w : World) :
  let r := (status_route cfg env w).1 in
  let w' := (status_route cfg env w).2 in
  if Js.truthy_str (QUETEXT_API_KEY cfg)
  then
    emitted w w' [QuetextStatus]
    ∧ projects w' = projects w
    ∧ match quetext_status env with
      | Resolved api =>
          statusCode r = 200
          ∧ Js.get "status" (payload r) = Some (JStr "operational")
          ∧ Js.get "api_status" (payload r) = Some api
          ∧ Js.get "limits" (payload r)
            = Some (JObj [("max_text_length", JNum 10000%float);
                          ("min_text_length", JNum 100%float);
                          ("supported_languages",
                           JArr [JStr "en"; JStr "es"; JStr "fr"; JStr "de"])])
      | Rejected _ =>
          statusCode r = 503
          ∧ Js.get "status" (payload r) = Some (JStr "unavailable")
          ∧ Js.get "error" (payload r)
            = Some (JStr "Unable to connect to plagiarism service")
      end
  else
    w' = w
    ∧ statusCode r = 200
    ∧ Js.get "status" (payload r) = Some (JStr "disabled").
Proof.
  unfold status_route, try_catch.
  destruct (Js.truthy_str (QUETEXT_API_KEY cfg)); cbn [negb];
    [|repeat split].
  unfold mbind, Async_bind, await.
  destruct (quetext_status env) as [api|e]; repeat split.
Qed.

End StatusFacts.

(** ** The payment routes, beyond the happy path *)

Module PaymentMore.
Import Payment PaymentSpec PaymentVocabulary.

(** What [error.response?.data?.message || fallback] evaluates to. *)
Lemma provider_message_cases (e : jsError) (fallback : string) :
  (∃ er m, response e = Some er ∧ data_message er = Some m ∧ m ≠ ""
           ∧ provider_message e fallback = m)
  ∨ ((∀ er m, response e = Some er -> data_message er = Some m -> m = "")
     ∧ provider_message e fallback = fallback).
Proof.
  unfold provider_message, Js.or_str.
  destruct (response e) as [er|]; [|right; split; [discriminate|done]].
  destruct (data_message er) as [m|] eqn:Hm;
    [|right; split; [congruence|done]].
  destruct (String.eqb_spec m "") as [->|Hne].
  - right. split; [congruence|done].
  - left. by exists er, m.
Qed.

(** The merge of written fields keeps what the fields leave out. *)
Lemma merge_initiated (ref : string) (fee total : float) (now : Z)
    (p : Project) :
  let p' := merge (initiated ref fee total now) p in
  same_description p p' ∧ same_approval p p'
  ∧ paymentStatus p' = Some "initiated"
  ∧ paymentReference p' = Some ref
  ∧ transactionFee p' = Some fee
  ∧ totalAmount p' = Some total
  ∧ bankAccount p' = Some ACCESS_BANK_ACCOUNT.
Proof. repeat split. Qed.

Lemma merge_completed (tx : TransactionData) (auth : Authorization) (now : Z)
    (p : Project) :
  let p' := merge (completed tx auth now) p in
  same_description p p' ∧ same_initiation p p'
  ∧ paymentStatus p' = Some "completed"
  ∧ project_status p' = Some "approved"
  ∧ transactionReference p' = Some (tx_reference tx).
Proof. repeat split. Qed.

Lemma merge_failed (now : Z) (p : Project) :
  let p' := merge (failed now) p in
  same_description p p' ∧ same_initiation p p' ∧ same_approval p p'
  ∧ paymentStatus p' = Some "failed".
Proof. repeat split. Qed.

Lemma others_untouched_refl (id : string) (w : World) :
  others_untouched id w w.
Proof. by intros id' _. Qed.

Lemma others_untouched_insert (id : string) (w : World) (p : Project)
    (evs : list event) :
  others_untouched id w
    {| projects := <[id := p]> (projects w); trace := evs |}.
Proof. intros id' Hne. cbn [projects]. by rewrite lookup_insert_ne. Qed.

(** *** Initiation *)

(** The run of [initiate] on a well-formed id, up to the price check. *)
Lemma initiate_unpriced (cfg : Config) (env : Env) (pid : string) (w : World) :
  pid ≠ "" ->
  match projects w !! pid with
  | None =>
      initiate cfg env pid w
      = (failure 404 "Project not found", log (FirestoreGet pid) w)
  | Some p =>
      match price p with
      | None =>
          initiate cfg env pid w
          = (failure 400 "Invalid project price", log (FirestoreGet pid) w)
      | Some q =>
          (q <=? 0)%float = true ->
          initiate cfg env pid w
          = (failure 400 "Invalid project price", log (FirestoreGet pid) w)
      end
  end.
Proof.
  intros Hpid.
  unfold initiate, try_catch, mbind, Async_bind, doc_get.
  rewrite (PaymentFacts.eqb_empty_false pid Hpid).
  destruct (projects w !! pid) as [p|]; [|reflexivity].
  destruct (price p) as [q|]; [|reflexivity].
  intros Hq. by rewrite (PaymentFacts.nonpositive_price_refused q Hq).
Qed.

(** X8: for a project id that is not in the store the route answers 404
    with [success: false]; it has read the store once, called no provider
    and written nothing. *)
Theorem initiate_unknown_project (cfg : Config) (env : Env) (pid : string)
    (w : World) :
  pid ≠ "" ->
  projects w !! pid = None ->
  ∃ r w',
    initiate cfg env pid w = (r, w')
    ∧ statusCode r = 404
    ∧ Js.get "success" (payload r) = Some (JBool false)
    ∧ Js.get "error" (payload r) = Some (JStr "Project not found")
    ∧ emitted w w' [FirestoreGet pid]
    ∧ projects w' = projects w.
Proof.
  intros Hpid Hp. pose proof (initiate_unpriced cfg env pid w Hpid) as Hrun.
  rewrite Hp in Hrun. rewrite Hrun. eexists _, _. repeat split.
Qed.

(** Instance: the id ["p2"] in a store that holds ["p1"] only. *)
Lemma initiate_unknown_project_witness :
  let w := Sample.world (Some 1000%float) in
  "p2" ≠ ""
  ∧ projects w !! "p2" = None
  ∧ ∃ r w',
      initiate Sample.cfg (Sample.env "success") "p2" w = (r, w')
      ∧ statusCode r = 404
      ∧ Js.get "success" (payload r) = Some (JBool false)
      ∧ Js.get "error" (payload r) = Some (JStr "Project not found")
      ∧ emitted w w' [FirestoreGet "p2"]
      ∧ projects w' = projects w.
Proof.
  intros w.
  assert ("p2" ≠ "") as Hpid by discriminate.
  assert (projects w !! "p2" = None) as Hp by (vm_compute; reflexivity).
  split; [exact Hpid|]. split; [exact Hp|].
  exact (initiate_unknown_project Sample.cfg (Sample.env "success") "p2" w
           Hpid Hp).
Defined.

(** X9: when the initialize call fails, the route answers 500 with the
    provider's message when the provider sent a non-empty one, and with
    "Payment initialization failed" in every other case: no answer at all,
    an answer without body, a body without message or with an empty one.
    The project record is left as it was: the route writes only after the
    provider accepted. *)
Theorem initiate_provider_failure (cfg : Config) (env : Env) (pid : string)
    (w : World) (p : Project) (q : float) (e : jsError) :
  pid ≠ "" ->
  projects w !! pid = Some p ->
  price p = Some q ->
  (0 <? q)%float = true ->
  paystack_initialize env (initialize_request cfg env pid p q) = Rejected e ->
  let r := (initiate cfg env pid w).1 in
  let w' := (initiate cfg env pid w).2 in
  statusCode r = 500
  ∧ Js.get "success" (payload r) = Some (JBool false)
  ∧ (∀ er m, response e = Some er -> data_message er = Some m -> m ≠ "" ->
             Js.get "error" (payload r) = Some (JStr m))
  ∧ ((∀ er m, response e = Some er -> data_message er = Some m -> m = "") ->
     Js.get "error" (payload r) = Some (JStr "Payment initialization failed"))
  ∧ projects w' = projects w
  ∧ emitted w w'
      [FirestoreGet pid;
       PaystackInitialize (initialize_request cfg env pid p q)].
Proof.
  intros Hpid Hp Hq Hpos He r w'. subst r w'.
  rewrite (PaymentFacts.initiate_priced cfg env pid w p q Hpid Hp Hq Hpos), He.
  cbn [fst snd statusCode payload failure json_response projects].
  split; [reflexivity|]. split; [reflexivity|]. split; [|split].
  - intros er m Her Hm Hne.
    destruct (provider_message_cases e "Payment initialization failed")
      as [(er' & m' & Her' & Hm' & _ & ->) | [Hnone _]].
    + cbn. congruence.
    + by destruct (Hne (Hnone er m Her Hm)).
  - intros Hnone.
    destruct (provider_message_cases e "Payment initialization failed")
      as [(er' & m' & Her' & Hm' & Hne & _) | [_ ->]]; [|reflexivity].
    by destruct (Hne (Hnone er' m' Her' Hm')).
  - split; reflexivity.
Qed.

(** Instance: the provider answers 429 with a message. *)
Lemma initiate_provider_failure_witness :
  let w := Sample.world (Some 1000%float) in
  let p := Sample.project (Some 1000%float) in
  let e := Outside.too_many_requests in
  let env := Outside.answering (Resolved Sample.plagiarism_data)
               (Resolved (JObj [])) (Rejected e)
               (Resolved (Sample.transaction "success")) (Resolved "RCP_1")
               (Resolved ()) (Resolved Outside.signed_up) in
  let r := (initiate Sample.cfg env "p1" w).1 in
  let w' := (initiate Sample.cfg env "p1" w).2 in
  "p1" ≠ ""
  ∧ projects w !! "p1" = Some p
  ∧ (0 <? 1000)%float = true
  ∧ statusCode r = 500
  ∧ Js.get "success" (payload r) = Some (JBool false)
  ∧ (∀ er m, response e = Some er -> data_message er = Some m -> m ≠ "" ->
             Js.get "error" (payload r) = Some (JStr m))
  ∧ ((∀ er m, response e = Some er -> data_message er = Some m -> m = "") ->
     Js.get "error" (payload r) = Some (JStr "Payment initialization failed"))
  ∧ projects w' = projects w
  ∧ emitted w w'
      [FirestoreGet "p1";
       PaystackInitialize (initialize_request Sample.cfg env "p1" p 1000)].
Proof.
  intros w p e env r w'.
  assert ("p1" ≠ "") as Hpid by discriminate.
  assert (projects w !! "p1" = Some p) as Hp by (vm_compute; reflexivity).
  assert ((0 <? 1000)%float = true) as Hpos by reflexivity.
  split; [exact Hpid|]. split; [exact Hp|]. split; [exact Hpos|].
  exact (initiate_provider_failure Sample.cfg env "p1" w p 1000%float e
           Hpid Hp eq_refl Hpos eq_refl).
Defined.

(** The message of the answer for the four sample failures of the
    initialize call: a 429 with a message, a 503 whose body has no
    message, a 502 whose body is [null], a timeout. *)
Example initiate_provider_failure_samples :
  let error_of e :=
    Js.get "error"
      (payload (initiate Sample.cfg
                  (Outside.answering (Resolved Sample.plagiarism_data)
                     (Resolved (JObj [])) (Rejected e)
                     (Resolved (Sample.transaction "success"))
                     (Resolved "RCP_1") (Resolved ())
                     (Resolved Outside.signed_up))
                  "p1" (Sample.world (Some 1000%float))).1) in
  error_of Outside.too_many_requests = Some (JStr "Rate limit exceeded")
  ∧ error_of Outside.unavailable
    = Some (JStr "Payment initialization failed")
  ∧ error_of Outside.bad_gateway
    = Some (JStr "Payment initialization failed")
  ∧ error_of Sample.network_error
    = Some (JStr "Payment initialization failed").
Proof. vm_compute. repeat split. Qed.


(** [Math.round] on doubles: a half goes up, also below zero, and the sign
    of a zero is kept. *)
#[warnings="-inexact-float"]
Example Math_round_samples :
  Js.Math_round 2.5 = 3%float
  ∧ Js.Math_round (-2.5) = (-2)%float
  ∧ Js.Math_round 0.49999999999999994 = 0%float
  ∧ Js.Math_round (-0.2) = neg_zero
  ∧ Js.Math_round 101.49999999999999 = 101%float
  ∧ Js.Math_round 9007199254740993 = 9007199254740992%float
  ∧ Js.Math_round infinity = infinity
  ∧ PrimFloat.is_nan (Js.Math_round nan) = true.
Proof. vm_compute. repeat split. Qed.

(** X11: whatever the outside answers, [initiate] changes no document but
    the one of its project, and in that one it leaves the price, the
    author, the title and the approval fields as they were. *)
Theorem initiate_keeps_the_rest (cfg : Config) (env : Env) (pid : string)
    (w : World) (p : Project) :
  projects w !! pid = Some p ->
  let w' := (initiate cfg env pid w).2 in
  others_untouched pid w w'
  ∧ ∃ p', projects w' !! pid = Some p'
          ∧ same_description p p' ∧ same_approval p p'.
Proof.
  intros Hp.
  assert (∀ (r : Response) evs,
            let w' := (r, {| projects := projects w; trace := evs |}).2 in
            others_untouched pid w w'
            ∧ ∃ p', projects w' !! pid = Some p'
                    ∧ same_description p p' ∧ same_approval p p') as Hsame.
  { intros r evs. split; [by intros id' _|]. exists p. by repeat split. }
  unfold initiate, try_catch, mbind, Async_bind, doc_get, await, doc_update,
    mret, Async_ret, log.
  destruct (String.eqb pid ""); [destruct w; apply Hsame|].
  cbn [projects trace]. rewrite Hp.
  destruct (price p) as [q|]; [|apply Hsame].
  destruct (Js.falsy_number q || (q <=? 0)%float); [apply Hsame|].
  destruct (paystack_initialize env _) as [d|e]; [|apply Hsame].
  cbn [projects trace]. rewrite Hp. cbn [snd].
  split; [apply others_untouched_insert|].
  eexists. split; [cbn [projects]; apply lookup_insert_eq|].
  split; apply merge_initiated.
Qed.

(** Instance: the sample project. *)
Lemma initiate_keeps_the_rest_witness :
  let w := Sample.world (Some 1000%float) in
  let p := Sample.project (Some 1000%float) in
  let w' := (initiate Sample.cfg (Sample.env "success") "p1" w).2 in
  projects w !! "p1" = Some p
  ∧ others_untouched "p1" w w'
  ∧ ∃ p', projects w' !! "p1" = Some p'
          ∧ same_description p p' ∧ same_approval p p'.
Proof.
  intros w p w'.
  assert (projects w !! "p1" = Some p) as Hp by (vm_compute; reflexivity).
  split; [exact Hp|].
  exact (initiate_keeps_the_rest Sample.cfg (Sample.env "success") "p1" w p Hp).
Defined.

(** X12: nothing guards a project whose payment is under way: a second
    [initiate] on it goes through like the first, and the stored payment
    reference is then the one of the second call. *)
Theorem initiate_twice_overwrites (cfg : Config) (env1 env2 : Env)
    (pid : string) (w : World) (p : Project) (q : float)
    (d1 d2 : InitializeData) :
  pid ≠ "" ->
  projects w !! pid = Some p ->
  price p = Some q ->
  (0 <? q)%float = true ->
  paystack_initialize env1 (initialize_request cfg env1 pid p q) = Resolved d1 ->
  let w1 := (initiate cfg env1 pid w).2 in
  ∃ p1,
    projects w1 !! pid = Some p1
    ∧ paymentStatus p1 = Some "initiated"
    ∧ paymentReference p1 = Some (data_reference d1)
    ∧ (paystack_initialize env2 (initialize_request cfg env2 pid p1 q)
       = Resolved d2 ->
       statusCode (initiate cfg env2 pid w1).1 = 200
       ∧ ∃ p2, projects (initiate cfg env2 pid w1).2 !! pid = Some p2
               ∧ paymentStatus p2 = Some "initiated"
               ∧ paymentReference p2 = Some (data_reference d2)).
Proof.
  intros Hpid Hp Hq Hpos Hd1 w1. subst w1.
  rewrite (PaymentFacts.initiate_priced cfg env1 pid w p q Hpid Hp Hq Hpos), Hd1.
  cbn [snd].
  set (p1 := merge _ p).
  set (w1 := {| projects := _; trace := _ |}).
  assert (projects w1 !! pid = Some p1) as Hp1
    by (subst w1; cbn [projects]; apply lookup_insert_eq).
  exists p1. split; [exact Hp1|]. split; [reflexivity|].
  split; [reflexivity|]. intros Hd2.
  rewrite (PaymentFacts.initiate_priced cfg env2 pid w1 p1 q Hpid Hp1
             (eq_trans eq_refl Hq) Hpos), Hd2.
  cbn [fst snd statusCode json_response projects].
  split; [reflexivity|].
  eexists. split; [apply lookup_insert_eq|]. split; reflexivity.
Qed.

(** Instance: the same project initiated at two different times. *)
Lemma initiate_twice_overwrites_witness :
  let w := Sample.world (Some 1000%float) in
  let p := Sample.project (Some 1000%float) in
  let env := Sample.env "success" in
  let d := {| data_reference := "RESEARCHX-p1-1714557600000";
              authorization_url := "https://checkout.example/abc" |} in
  let w1 := (initiate Sample.cfg env "p1" w).2 in
  "p1" ≠ ""
  ∧ projects w !! "p1" = Some p
  ∧ (0 <? 1000)%float = true
  ∧ ∃ p1,
      projects w1 !! "p1" = Some p1
      ∧ paymentStatus p1 = Some "initiated"
      ∧ paymentReference p1 = Some (data_reference d)
      ∧ (paystack_initialize env (initialize_request Sample.cfg env "p1" p1 1000)
         = Resolved d ->
         statusCode (initiate Sample.cfg env "p1" w1).1 = 200
         ∧ ∃ p2, projects (initiate Sample.cfg env "p1" w1).2 !! "p1" = Some p2
                 ∧ paymentStatus p2 = Some "initiated"
                 ∧ paymentReference p2 = Some (data_reference d)).
Proof.
  intros w p env d w1.
  assert ("p1" ≠ "") as Hpid by discriminate.
  assert (projects w !! "p1" = Some p) as Hp by (vm_compute; reflexivity).
  assert ((0 <? 1000)%float = true) as Hpos by reflexivity.
  split; [exact Hpid|]. split; [exact Hp|]. split; [exact Hpos|].
  exact (initiate_twice_overwrites Sample.cfg env env "p1" w p 1000%float d d
           Hpid Hp eq_refl Hpos eq_refl).
Defined.

(** *** Verification *)

(** X13: when the verify call fails, the route answers 500 with the
    provider's message when the provider sent a non-empty one, and with
    "Payment verification failed" in every other case: no answer at all, an
    answer without body, a body without message or with an empty one.  It
    has made no other call and written nothing. *)
Theorem verify_call_failure (cfg : Config) (env : Env) (pid : string)
    (ref : json) (w : World) (e : jsError) :
  Js.truthy ref = true ->
  pid ≠ "" ->
  paystack_verify env ref = Rejected e ->
  let r := (verify cfg env pid ref w).1 in
  let w' := (verify cfg env pid ref w).2 in
  statusCode r = 500
  ∧ Js.get "success" (payload r) = Some (JBool false)
  ∧ (∀ er m, response e = Some er -> data_message er = Some m -> m ≠ "" ->
             Js.get "error" (payload r) = Some (JStr m))
  ∧ ((∀ er m, response e = Some er -> data_message er = Some m -> m = "") ->
     Js.get "error" (payload r) = Some (JStr "Payment verification failed"))
  ∧ emitted w w' [PaystackVerify ref]
  ∧ projects w' = projects w.
Proof.
  intros Href Hpid Hv r w'. subst r w'.
  rewrite (PaymentFacts.verify_call_rejected cfg env pid ref w e Href Hpid Hv).
  cbn [fst snd statusCode payload failure json_response].
  split; [reflexivity|]. split; [reflexivity|]. split; [|split].
  - intros er m Her Hm Hne.
    destruct (provider_message_cases e "Payment verification failed")
      as [(er' & m' & Her' & Hm' & _ & ->) | [Hnone _]].
    + cbn. congruence.
    + by destruct (Hne (Hnone er m Her Hm)).
  - intros Hnone.
    destruct (provider_message_cases e "Payment verification failed")
      as [(er' & m' & Her' & Hm' & Hne & _) | [_ ->]]; [|reflexivity].
    by destruct (Hne (Hnone er' m' Her' Hm')).
  - split; reflexivity.
Qed.

(** Instance: the verify call times out. *)
Lemma verify_call_failure_witness :
  let w := Sample.world (Some 1000%float) in
  let ref := JStr "RESEARCHX-p1-1" in
  let e := Sample.network_error in
  let env := Outside.answering (Resolved Sample.plagiarism_data)
               (Resolved (JObj [])) (Resolved Outside.initialized)
               (Rejected e) (Resolved "RCP_1") (Resolved ())
               (Resolved Outside.signed_up) in
  let r := (verify Sample.cfg env "p1" ref w).1 in
  let w' := (verify Sample.cfg env "p1" ref w).2 in
  Js.truthy ref = true
  ∧ "p1" ≠ ""
  ∧ statusCode r = 500
  ∧ Js.get "success" (payload r) = Some (JBool false)
  ∧ (∀ er m, response e = Some er -> data_message er = Some m -> m ≠ "" ->
             Js.get "error" (payload r) = Some (JStr m))
  ∧ ((∀ er m, response e = Some er -> data_message er = Some m -> m = "") ->
     Js.get "error" (payload r) = Some (JStr "Payment verification failed"))
  ∧ emitted w w' [PaystackVerify ref]
  ∧ projects w' = projects w.
Proof.
  intros w ref e env r w'.
  assert (Js.truthy ref = true) as Href by reflexivity.
  assert ("p1" ≠ "") as Hpid by discriminate.
  split; [exact Href|]. split; [exact Hpid|].
  exact (verify_call_failure Sample.cfg env "p1" ref w e Href Hpid eq_refl).
Defined.

(** The message of the answer for the four sample failures of the verify
    call. *)
Example verify_call_failure_samples :
  let error_of e :=
    Js.get "error"
      (payload (verify Sample.cfg
                  (Outside.answering (Resolved Sample.plagiarism_data)
                     (Resolved (JObj [])) (Resolved Outside.initialized)
                     (Rejected e) (Resolved "RCP_1") (Resolved ())
                     (Resolved Outside.signed_up))
                  "p1" (JStr "RESEARCHX-p1-1")
                  (Sample.world (Some 1000%float))).1) in
  error_of Outside.too_many_requests = Some (JStr "Rate limit exceeded")
  ∧ error_of Outside.unavailable = Some (JStr "Payment verification failed")
  ∧ error_of Outside.bad_gateway = Some (JStr "Payment verification failed")
  ∧ error_of Sample.network_error
    = Some (JStr "Payment verification failed").
Proof. vm_compute. repeat split. Qed.

(** X14: when the creation of the transfer recipient fails, no transfer is
    attempted and nothing is written; the route answers 500. *)
Theorem verify_recipient_failure (cfg : Config) (env : Env) (pid : string)
    (ref : json) (w : World) (tx : TransactionData) (e : jsError) :
  Js.truthy ref = true ->
  pid ≠ "" ->
  paystack_verify env ref = Resolved tx ->
  tx_status tx = "success" ->
  paystack_transferrecipient env recipient_request = Rejected e ->
  let r := (verify cfg env pid ref w).1 in
  let w' := (verify cfg env pid ref w).2 in
  statusCode r = 500
  ∧ Js.get "success" (payload r) = Some (JBool false)
  ∧ emitted w w'
      [PaystackVerify ref; PaystackTransferRecipient recipient_request]
  ∧ projects w' = projects w.
Proof.
  intros Href Hpid Hv Hst Hr r w'. subst r w'.
  rewrite (PaymentFacts.verify_success cfg env pid ref w tx Href Hpid Hv Hst),
    Hr.
  repeat split.
Qed.

(** Instance: the recipient call is answered with 429. *)
Lemma verify_recipient_failure_witness :
  let w := Sample.world (Some 1000%float) in
  let ref := JStr "RESEARCHX-p1-1" in
  let env := Outside.answering (Resolved Sample.plagiarism_data)
               (Resolved (JObj [])) (Resolved Outside.initialized)
               (Resolved (Sample.transaction "success"))
               (Rejected Outside.too_many_requests) (Resolved ())
               (Resolved Outside.signed_up) in
  let r := (verify Sample.cfg env "p1" ref w).1 in
  let w' := (verify Sample.cfg env "p1" ref w).2 in
  Js.truthy ref = true
  ∧ "p1" ≠ ""
  ∧ statusCode r = 500
  ∧ Js.get "success" (payload r) = Some (JBool false)
  ∧ emitted w w'
      [PaystackVerify ref; PaystackTransferRecipient recipient_request]
  ∧ projects w' = projects w.
Proof.
  intros w ref env r w'.
  assert (Js.truthy ref = true) as Href by reflexivity.
  assert ("p1" ≠ "") as Hpid by discriminate.
  split; [exact Href|]. split; [exact Hpid|].
  exact (verify_recipient_failure Sample.cfg env "p1" ref w
           (Sample.transaction "success") Outside.too_many_requests
           Href Hpid eq_refl eq_refl eq_refl).
Defined.

(** X15: the route does not look the project up before it moves money.
    For an id that is not in the store, a verified payment is still
    transferred; the write then fails (or, when the provider's answer has
    no [authorization], is not even attempted), nothing is stored and the
    answer is 500 with the generic message.  When the payment was not
    successful the answer is 500 as well, not 400. *)
Theorem verify_unknown_project (cfg : Config) (env : Env) (pid : string)
    (ref : json) (w : World) (tx : TransactionData) :
  Js.truthy ref = true ->
  pid ≠ "" ->
  paystack_verify env ref = Resolved tx ->
  projects w !! pid = None ->
  let r := (verify cfg env pid ref w).1 in
  let w' := (verify cfg env pid ref w).2 in
  statusCode r = 500
  ∧ projects w' = projects w
  ∧ (∀ code,
       tx_status tx = "success" ->
       paystack_transferrecipient env recipient_request = Resolved code ->
       paystack_transfer env (transfer_request pid tx code) = Resolved () ->
       Js.get "error" (payload r) = Some (JStr "Payment verification failed")
       ∧ match tx_authorization tx with
         | Some auth =>
             emitted w w'
               [PaystackVerify ref;
                PaystackTransferRecipient recipient_request;
                PaystackTransfer (transfer_request pid tx code);
                FirestoreUpdate pid (completed tx auth (serverTimestamp env))]
         | None =>
             emitted w w'
               [PaystackVerify ref;
                PaystackTransferRecipient recipient_request;
                PaystackTransfer (transfer_request pid tx code)]
         end)
  ∧ (tx_status tx ≠ "success" ->
     Js.get "error" (payload r) = Some (JStr "Payment verification failed")
     ∧ emitted w w'
         [PaystackVerify ref;
          FirestoreUpdate pid (failed (serverTimestamp env))]).
Proof.
  intros Href Hpid Hv Hp r w'. subst r w'.
  destruct (String.eqb_spec (tx_status tx) "success") as [Hst|Hst].
  - rewrite (PaymentFacts.verify_success cfg env pid ref w tx Href Hpid Hv Hst),
      Hp.
    destruct (paystack_transferrecipient env recipient_request)
      as [code|e1] eqn:Hr;
      [destruct (paystack_transfer env (transfer_request pid tx code))
         as [[]|e2] eqn:Ht;
         [destruct (tx_authorization tx) as [auth|]|]|];
      (split; [reflexivity|]); (split; [reflexivity|]);
      (split; [|intros Hne; by destruct Hne]);
      intros code' _ [= <-] Ht'; try congruence;
      split; reflexivity.
  - rewrite (PaymentFacts.verify_not_success cfg env pid ref w tx Href Hpid
               Hv Hst), Hp.
    split; [reflexivity|]. split; [reflexivity|].
    split; [intros code Hst'; by destruct Hst|].
    intros _. split; reflexivity.
Qed.

(** Instance: a verified payment for the id ["p2"], which is not stored. *)
Lemma verify_unknown_project_witness :
  let w := Sample.world (Some 1000%float) in
  let ref := JStr "RESEARCHX-p1-1" in
  let env := Sample.env "success" in
  let tx := Sample.transaction "success" in
  let r := (verify Sample.cfg env "p2" ref w).1 in
  let w' := (verify Sample.cfg env "p2" ref w).2 in
  Js.truthy ref = true
  ∧ "p2" ≠ ""
  ∧ projects w !! "p2" = None
  ∧ statusCode r = 500
  ∧ projects w' = projects w
  ∧ (∀ code,
       tx_status tx = "success" ->
       paystack_transferrecipient env recipient_request = Resolved code ->
       paystack_transfer env (transfer_request "p2" tx code) = Resolved () ->
       Js.get "error" (payload r) = Some (JStr "Payment verification failed")
       ∧ match tx_authorization tx with
         | Some auth =>
             emitted w w'
               [PaystackVerify ref;
                PaystackTransferRecipient recipient_request;
                PaystackTransfer (transfer_request "p2" tx code);
                FirestoreUpdate "p2" (completed tx auth (serverTimestamp env))]
         | None =>
             emitted w w'
               [PaystackVerify ref;
                PaystackTransferRecipient recipient_request;
                PaystackTransfer (transfer_request "p2" tx code)]
         end)
  ∧ (tx_status tx ≠ "success" ->
     Js.get "error" (payload r) = Some (JStr "Payment verification failed")
     ∧ emitted w w'
         [PaystackVerify ref;
          FirestoreUpdate "p2" (failed (serverTimestamp env))]).
Proof.
  intros w ref env tx r w'.
  assert (Js.truthy ref = true) as Href by reflexivity.
  assert ("p2" ≠ "") as Hpid by discriminate.
  assert (projects w !! "p2" = None) as Hp by (vm_compute; reflexivity).
  split; [exact Href|]. split; [exact Hpid|]. split; [exact Hp|].
  exact (verify_unknown_project Sample.cfg env "p2" ref w tx Href Hpid
           eq_refl Hp).
Defined.

(** A provider answer without [authorization]: the funds are transferred,
    then reading the bank throws; nothing is written and the answer is
    500, also for a project that exists. *)
Example verify_without_authorization :
  let env := Outside.answering (Resolved Sample.plagiarism_data)
               (Resolved (JObj [])) (Resolved Outside.initialized)
               (Resolved Outside.payment_without_authorization)
               (Resolved "RCP_1") (Resolved ())
               (Resolved Outside.signed_up) in
  let w := Sample.world (Some 1000%float) in
  let run := verify Sample.cfg env "p1" (JStr "RESEARCHX-p1-1") w in
  statusCode run.1 = 500
  ∧ map provider_call (trace run.2) = [true; true; true]
  ∧ existsb transfer_call (trace run.2) = true
  ∧ projects run.2 = projects w.
Proof. vm_compute. repeat split. Qed.

(** X16: [verify] never reads the store: it does not look at the project,
    nor compare the reference of the request with a stored one.  It makes
    at most three provider calls and at most one write, and that write is
    to the document of the project in the path. *)
Theorem verify_never_reads_the_store (cfg : Config) (env : Env)
    (pid : string) (ref : json) (w : World) :
  ∃ evs,
    emitted w (verify cfg env pid ref w).2 evs
    ∧ existsb firestore_get evs = false
    ∧ (length (List.filter provider_call evs) <= 3)%nat
    ∧ (length (List.filter firestore_update evs) <= 1)%nat
    ∧ (∀ id fields, FirestoreUpdate id fields ∈ evs -> id = pid).
Proof.
  destruct (PaymentFacts.verify_runs cfg env pid ref w) as (evs & Hevs & Hrun).
  exists evs. split; [exact Hevs|].
  destruct Hrun; (split; [reflexivity|]);
    (split; [simpl; lia|]); (split; [simpl; lia|]);
    intros id fields Hin;
    repeat (apply elem_of_cons in Hin as [Hin|Hin];
            [try discriminate Hin; by injection Hin|]);
    by apply elem_of_nil in Hin.
Qed.

(** X17: a write of [paymentStatus = "completed"] by [verify] means that
    the provider reported the status ["success"] for the reference and that
    both the recipient creation and the transfer resolved. *)
Theorem verify_completes_only_after_transfer (cfg : Config) (env : Env)
    (pid : string) (ref : json) (w : World) (evs : list event) (id : string)
    (fields : Project) :
  emitted w (verify cfg env pid ref w).2 evs ->
  FirestoreUpdate id fields ∈ evs ->
  paymentStatus fields = Some "completed" ->
  ∃ tx code auth,
    paystack_verify env ref = Resolved tx
    ∧ tx_status tx = "success"
    ∧ paystack_transferrecipient env recipient_request = Resolved code
    ∧ paystack_transfer env (transfer_request pid tx code) = Resolved ()
    ∧ tx_authorization tx = Some auth
    ∧ fields = completed tx auth (serverTimestamp env)
    ∧ existsb transfer_call evs = true.
Proof.
  intros Hevs Hin Hdone.
  destruct (PaymentFacts.verify_runs cfg env pid ref w) as (evs' & Hevs' & Hrun).
  assert (evs' = evs) as ->.
  { unfold emitted in Hevs, Hevs'. rewrite Hevs in Hevs'.
    by apply app_inv_head in Hevs'. }
  destruct Hrun;
    repeat (apply elem_of_cons in Hin as [Hin|Hin];
            [try discriminate Hin|]);
    try (by apply elem_of_nil in Hin).
  - injection Hin as -> ->. discriminate Hdone.
  - injection Hin as -> ->. by exists tx, code, auth.
Qed.

(** Instance: the sample payment. *)
Lemma verify_completes_only_after_transfer_witness :
  let w := Sample.world (Some 1000%float) in
  let ref := JStr "RESEARCHX-p1-1" in
  let env := Sample.env "success" in
  let tx := Sample.transaction "success" in
  let fields := completed tx {| authorization_bank := "Access Bank" |}
                  (serverTimestamp env) in
  let evs := [PaystackVerify ref; PaystackTransferRecipient recipient_request;
              PaystackTransfer (transfer_request "p1" tx "RCP_1");
              FirestoreUpdate "p1" fields] in
  emitted w (verify Sample.cfg env "p1" ref w).2 evs
  ∧ FirestoreUpdate "p1" fields ∈ evs
  ∧ paymentStatus fields = Some "completed"
  ∧ ∃ tx code auth,
      paystack_verify env ref = Resolved tx
      ∧ tx_status tx = "success"
      ∧ paystack_transferrecipient env recipient_request = Resolved code
      ∧ paystack_transfer env (transfer_request "p1" tx code) = Resolved ()
      ∧ tx_authorization tx = Some auth
      ∧ fields = completed tx auth (serverTimestamp env)
      ∧ existsb transfer_call evs = true.
Proof.
  intros w ref env tx fields evs.
  assert (emitted w (verify Sample.cfg env "p1" ref w).2 evs) as Hevs
    by (vm_compute; reflexivity).
  assert (FirestoreUpdate "p1" fields ∈ evs) as Hin
    by (do 3 apply list_elem_of_further; apply list_elem_of_here).
  split; [exact Hevs|]. split; [exact Hin|]. split; [reflexivity|].
  exact (verify_completes_only_after_transfer Sample.cfg env "p1" ref w evs
           "p1" fields Hevs Hin eq_refl).
Defined.

(** X18: whatever the outside answers, [verify] changes no document but
    the one of its project, and in that one it leaves the price, the
    author, the title and what the initiation stored (reference, fee,
    total, bank account) as they were. *)
Theorem verify_keeps_the_rest (cfg : Config) (env : Env) (pid : string)
    (ref : json) (w : World) (p : Project) :
  projects w !! pid = Some p ->
  let w' := (verify cfg env pid ref w).2 in
  others_untouched pid w w'
  ∧ ∃ p', projects w' !! pid = Some p'
          ∧ same_description p p' ∧ same_initiation p p'.
Proof.
  intros Hp w'. subst w'.
  destruct (PaymentFacts.verify_runs cfg env pid ref w) as (evs & _ & Hrun).
  unfold others_untouched.
  assert (∀ fields,
            same_description p (merge fields p) ->
            same_initiation p (merge fields p) ->
            (∀ id', id' ≠ pid ->
                    <[pid := merge fields p]> (projects w) !! id'
                    = projects w !! id')
            ∧ ∃ p', <[pid := merge fields p]> (projects w) !! pid = Some p'
                    ∧ same_description p p' ∧ same_initiation p p') as Hwritten.
  { intros fields Hd Hi. split.
    - intros id' Hne. by rewrite lookup_insert_ne.
    - exists (merge fields p). by rewrite lookup_insert_eq. }
  destruct Hrun as [_|e _|tx _ _|tx e _ _ _|tx code e _ _ _ _
                    |tx code _ _ _ _ _|tx code auth _ _ _ _ _];
    rewrite ?Hp;
    first [ apply Hwritten; first [apply merge_failed | apply merge_completed]
          | split; [done | exists p; by repeat split] ].
Qed.

(** Instance: the sample payment. *)
Lemma verify_keeps_the_rest_witness :
  let w := Sample.world (Some 1000%float) in
  let p := Sample.project (Some 1000%float) in
  let w' := (verify Sample.cfg (Sample.env "success") "p1"
               (JStr "RESEARCHX-p1-1") w).2 in
  projects w !! "p1" = Some p
  ∧ others_untouched "p1" w w'
  ∧ ∃ p', projects w' !! "p1" = Some p'
          ∧ same_description p p' ∧ same_initiation p p'.
Proof.
  intros w p w'.
  assert (projects w !! "p1" = Some p) as Hp by (vm_compute; reflexivity).
  split; [exact Hp|].
  exact (verify_keeps_the_rest Sample.cfg (Sample.env "success") "p1"
           (JStr "RESEARCHX-p1-1") w p Hp).
Defined.

(** X19: an initiation followed by a verification that the provider
    confirms leaves the project approved with its payment completed; the
    record still holds the reference and the total the initiation stored
    and the price it had, and its payment details hold a hundredth of the
    amount the provider reports and the bank of its authorization.  The
    reference of the verification request and the amount the provider
    reports are taken as they come: neither is compared with what was
    stored. *)
Theorem initiate_then_verify (cfg : Config) (env1 env2 : Env) (pid : string)
    (ref : json) (w : World) (p : Project) (q : float) (d : InitializeData)
    (tx : TransactionData) (code : string) (auth : Authorization) :
  pid ≠ "" ->
  projects w !! pid = Some p ->
  price p = Some q ->
  (0 <? q)%float = true ->
  paystack_initialize env1 (initialize_request cfg env1 pid p q) = Resolved d ->
  Js.truthy ref = true ->
  paystack_verify env2 ref = Resolved tx ->
  tx_status tx = "success" ->
  paystack_transferrecipient env2 recipient_request = Resolved code ->
  paystack_transfer env2 (transfer_request pid tx code) = Resolved () ->
  tx_authorization tx = Some auth ->
  let w1 := (initiate cfg env1 pid w).2 in
  let r := (verify cfg env2 pid ref w1).1 in
  let w2 := (verify cfg env2 pid ref w1).2 in
  statusCode r = 200
  ∧ (length (trace w2) = length (trace w) + 7)%nat
  ∧ ∃ p2 details,
      projects w2 !! pid = Some p2
      ∧ paymentStatus p2 = Some "completed"
      ∧ project_status p2 = Some "approved"
      ∧ price p2 = Some q
      ∧ paymentReference p2 = Some (data_reference d)
      ∧ totalAmount p2 = Some (q + q * feeRate)%float
      ∧ paymentDetails p2 = Some details
      ∧ pd_amount details = (tx_amount tx / 100)%float
      ∧ bank details = authorization_bank auth
      ∧ transferTo details = ACCESS_BANK_ACCOUNT.
Proof.
  intros Hpid Hp Hq Hpos Hd Href Hv Hst Hr Ht Ha w1 r w2. subst r w2 w1.
  rewrite (PaymentFacts.initiate_priced cfg env1 pid w p q Hpid Hp Hq Hpos), Hd.
  cbn [snd].
  set (p1 := merge _ p).
  set (w1 := {| projects := _; trace := _ |}).
  assert (projects w1 !! pid = Some p1) as Hp1
    by (subst w1; cbn [projects]; apply lookup_insert_eq).
  rewrite (PaymentFacts.verify_success cfg env2 pid ref w1 tx Href Hpid Hv Hst),
    Hr, Ht, Ha, Hp1.
  cbn [fst snd statusCode json_response projects trace].
  split; [reflexivity|]. split.
  { subst w1. cbn [trace]. rewrite !length_app. simpl. lia. }
  eexists _, _. split; [apply lookup_insert_eq|].
  split; [reflexivity|]. split; [reflexivity|].
  split; [subst p1; cbn; by rewrite Hq|].
  repeat split.
Qed.

(** Instance: the sample project, paid under a reference of another
    payment. *)
Lemma initiate_then_verify_witness :
  let w := Sample.world (Some 1000%float) in
  let p := Sample.project (Some 1000%float) in
  let env := Sample.env "success" in
  let ref := JStr "RESEARCHX-other-7" in
  let tx := Sample.transaction "success" in
  let auth := {| authorization_bank := "Access Bank" |} in
  let w1 := (initiate Sample.cfg env "p1" w).2 in
  let r := (verify Sample.cfg env "p1" ref w1).1 in
  let w2 := (verify Sample.cfg env "p1" ref w1).2 in
  "p1" ≠ ""
  ∧ projects w !! "p1" = Some p
  ∧ (0 <? 1000)%float = true
  ∧ Js.truthy ref = true
  ∧ statusCode r = 200
  ∧ (length (trace w2) = length (trace w) + 7)%nat
  ∧ ∃ p2 details,
      projects w2 !! "p1" = Some p2
      ∧ paymentStatus p2 = Some "completed"
      ∧ project_status p2 = Some "approved"
      ∧ price p2 = Some 1000%float
      ∧ paymentReference p2 = Some "RESEARCHX-p1-1714557600000"
      ∧ totalAmount p2 = Some (1000 + 1000 * feeRate)%float
      ∧ paymentDetails p2 = Some details
      ∧ pd_amount details = (tx_amount tx / 100)%float
      ∧ bank details = authorization_bank auth
      ∧ transferTo details = ACCESS_BANK_ACCOUNT.
Proof.
  intros w p env ref tx auth w1 r w2.
  assert ("p1" ≠ "") as Hpid by discriminate.
  assert (projects w !! "p1" = Some p) as Hp by (vm_compute; reflexivity).
  assert ((0 <? 1000)%float = true) as Hpos by reflexivity.
  assert (Js.truthy ref = true) as Href by reflexivity.
  split; [exact Hpid|]. split; [exact Hp|]. split; [exact Hpos|].
  split; [exact Href|].
  exact (initiate_then_verify Sample.cfg env env "p1" ref w p 1000%float
           {| data_reference := "RESEARCHX-p1-1714557600000";
              authorization_url := "https://checkout.example/abc" |}
           tx "RCP_1" auth Hpid Hp eq_refl Hpos eq_refl Href eq_refl eq_refl
           eq_refl eq_refl eq_refl).
Defined.

End PaymentMore.

(** ** The signup handler *)

Module SignupFacts.
Import Signup.

(** The call to the auth provider, for a body with both credentials. *)
Lemma signup_posted (env : Env) (b : Body) (w : World) :
  Js.truthy (email b) = true ->
  Js.truthy (password b) = true ->
  signup env {| method := "POST"; body := Some b |} w
  = (match supabase_signUp env (email b) (password b) with
     | Resolved res =>
         match error_message res with
         | Some msg => json_response 400 [("error", JStr msg)]
         | None => json_response 200 [("user", data_user res)]
         end
     | Rejected _ => json_response 500 [("error", JStr "Server error")]
     end,
     log (SupabaseSignUp (email b) (password b)) w).
Proof.
  intros He Hp. unfold signup, try_catch, mbind, Async_bind, await.
  simpl. rewrite He, Hp. simpl.
  destruct (supabase_signUp env _ _) as [res|e]; [|reflexivity].
  destruct (error_message res); reflexivity.
Qed.

(** X20: the handler answers anything but a POST with 405, and a POST
    without a body, without an email or without a password with 400; in
    both cases the auth provider is not called. *)
Theorem signup_refuses_without_calling (env : Env) (req : Request) (w : World) :
  method req ≠ "POST"
  ∨ body req = None
  ∨ (∃ b, body req = Some b
          ∧ (Js.truthy (email b) = false ∨ Js.truthy (password b) = false)) ->
  ∃ r, signup env req w = (r, w)
       ∧ (method req ≠ "POST" ->
          statusCode r = 405
          ∧ payload r = [("error", JStr "Method not allowed")])
       ∧ (method req = "POST" ->
          statusCode r = 400
          ∧ payload r = [("error", JStr "Email and password are required")]).
Proof.
  intros Hbad. unfold signup.
  destruct (String.eqb_spec (method req) "POST") as [Hm|Hm]; cbn [negb].
  2:{ eexists. split; [reflexivity|]. split; [done | intros; by destruct Hm]. }
  unfold try_catch.
  assert (negb (Js.truthy (email (default {| email := JUndefined;
                                             password := JUndefined |}
                                    (body req))))
          || negb (Js.truthy (password (default {| email := JUndefined;
                                                   password := JUndefined |}
                                          (body req)))) = true) as ->.
  { destruct Hbad as [Hne | [Hb | (b & Hb & [He | Hp])]];
      [by destruct Hne | rewrite Hb; simpl.. ].
    - reflexivity.
    - by rewrite He.
    - rewrite Hp. apply orb_true_r. }
  eexists. split; [reflexivity|]. split; [intros Hne; by destruct Hne | done].
Qed.

(** Instance: a POST whose body has an email only. *)
Lemma signup_refuses_without_calling_witness :
  let req := {| method := "POST";
                body := Some {| email := JStr "a@example.com";
                                password := JUndefined |} |} in
  let w := Sample.world None in
  (method req ≠ "POST"
   ∨ body req = None
   ∨ (∃ b, body req = Some b
           ∧ (Js.truthy (email b) = false ∨ Js.truthy (password b) = false)))
  ∧ ∃ r, signup (Sample.env "success") req w = (r, w)
         ∧ (method req ≠ "POST" ->
            statusCode r = 405
            ∧ payload r = [("error", JStr "Method not allowed")])
         ∧ (method req = "POST" ->
            statusCode r = 400
            ∧ payload r = [("error", JStr "Email and password are required")]).
Proof.
  intros req w.
  assert (method req ≠ "POST"
          ∨ body req = None
          ∨ (∃ b, body req = Some b
                  ∧ (Js.truthy (email b) = false
                     ∨ Js.truthy (password b) = false))) as Hbad.
  { right. right. eexists. split; [reflexivity|]. right. reflexivity. }
  split; [exact Hbad|].
  exact (signup_refuses_without_calling (Sample.env "success") req w Hbad).
Defined.

(** X21: a POST with both credentials calls the auth provider once, with
    the email and the password as they came.  The answer is 200 with the
    provider's user when the provider reports no error, 400 with the
    provider's error message when it reports one, and 500 with the fixed
    message "Server error" when the call throws.  The store is not
    touched. *)
Theorem signup_outcomes (env : Env) (b : Body) (w : World) :
  Js.truthy (email b) = true ->
  Js.truthy (password b) = true ->
  let r := (signup env {| method := "POST"; body := Some b |} w).1 in
  let w' := (signup env {| method := "POST"; body := Some b |} w).2 in
  emitted w w' [SupabaseSignUp (email b) (password b)]
  ∧ projects w' = projects w
  ∧ match supabase_signUp env (email b) (password b) with
    | Resolved res =>
        match error_message res with
        | None => statusCode r = 200 ∧ payload r = [("user", data_user res)]
        | Some msg => statusCode r = 400 ∧ payload r = [("error", JStr msg)]
        end
    | Rejected _ =>
        statusCode r = 500 ∧ payload r = [("error", JStr "Server error")]
    end.
Proof.
  intros He Hp r w'. subst r w'. rewrite (signup_posted env b w He Hp).
  split; [reflexivity|]. split; [reflexivity|].
  destruct (supabase_signUp env _ _) as [res|e]; [|done].
  by destruct (error_message res).
Qed.

(** Instance: a sign-up the provider accepts. *)
Lemma signup_outcomes_witness :
  let b := {| email := JStr "a@example.com"; password := JStr "s3cret-pw" |} in
  let env := Sample.env "success" in
  let w := Sample.world None in
  let r := (signup env {| method := "POST"; body := Some b |} w).1 in
  let w' := (signup env {| method := "POST"; body := Some b |} w).2 in
  Js.truthy (email b) = true
  ∧ Js.truthy (password b) = true
  ∧ emitted w w' [SupabaseSignUp (email b) (password b)]
  ∧ projects w' = projects w
  ∧ match supabase_signUp env (email b) (password b) with
    | Resolved res =>
        match error_message res with
        | None => statusCode r = 200 ∧ payload r = [("user", data_user res)]
        | Some msg => statusCode r = 400 ∧ payload r = [("error", JStr msg)]
        end
    | Rejected _ =>
        statusCode r = 500 ∧ payload r = [("error", JStr "Server error")]
    end.
Proof.
  intros b env w r w'.
  split; [reflexivity|]. split; [reflexivity|].
  exact (signup_outcomes env b w eq_refl eq_refl).
Defined.

End SignupFacts.

(** ** The error-handling middleware *)

Module ErrorHandlerFacts.
Import ErrorHandler.

(** X22: the status [errorHandler] answers with is the error's
    [statusCode], or 500 when that is absent or 0.  When that status is not
    one an answer can carry (it is outside 100..999), sending throws and the
    middleware gives no answer.  Otherwise, in production the answer depends
    on the status only: the message is the fixed "Something went wrong" and
    there is neither [stack] nor [details]; outside production the answer
    carries the error's message, stack and details. *)
Theorem errorHandler_hides_in_production (cfg : Config) (err : Err) :
  let c := status_or_500 (err_statusCode err) in
  (c = 500 ↔ err_statusCode err = None
             ∨ err_statusCode err = Some 0
             ∨ err_statusCode err = Some 500)
  ∧ (∀ c', c' ≠ 0 -> err_statusCode err = Some c' -> c = c')
  ∧ (¬ (100 <= c <= 999) -> errorHandler cfg err = None)
  ∧ (100 <= c <= 999 ->
     ∃ r, errorHandler cfg err = Some r
          ∧ statusCode r = c
          ∧ Js.get "status" (payload r) = Some (JStr "error")
          ∧ (NODE_ENV cfg = Some "production" ->
             payload r = [("status", JStr "error");
                          ("message", JStr "Something went wrong")])
          ∧ (NODE_ENV cfg ≠ Some "production" ->
             payload r = [("status", JStr "error");
                          ("message", JStr (err_message err));
                          ("stack", JStr (err_stack err));
                          ("details", err_details err)])).
Proof.
  intros c. subst c. unfold errorHandler, res_status_json.
  split; [|split; [|split]].
  - unfold status_or_500.
    destruct (err_statusCode err) as [c|]; [|split; [by left | done]].
    destruct (Z.eqb_spec c 0) as [->|Hc].
    + split; [by right; left | done].
    + split; [intros ->; by right; right|].
      intros [H | [H | H]]; congruence.
  - unfold status_or_500. intros c Hc ->. by apply Z.eqb_neq in Hc as ->.
  - intros Hout.
    destruct (Z.leb_spec 100 (status_or_500 (err_statusCode err)));
      [|reflexivity].
    destruct (Z.leb_spec (status_or_500 (err_statusCode err)) 999);
      [lia | reflexivity].
  - intros [Hlo Hhi]. apply Z.leb_le in Hlo, Hhi. rewrite Hlo, Hhi.
    cbn [andb]. eexists. split; [reflexivity|].
    cbn [statusCode payload json_response].
    split; [reflexivity|]. split; [reflexivity|]. split.
    + intros Hprod. by rewrite bool_decide_eq_true_2.
    + intros Hdev. by rewrite bool_decide_eq_false_2.
Qed.

(** An error without status in production, and one whose status is 42. *)
Example errorHandler_samples :
  errorHandler Sample.cfg
    {| err_statusCode := None; err_message := "boom";
       err_stack := "Error: boom"; err_details := JUndefined |}
  = Some (json_response 500 [("status", JStr "error");
                             ("message", JStr "Something went wrong")])
  ∧ errorHandler Sample.cfg
      {| err_statusCode := Some 42; err_message := "boom";
         err_stack := "Error: boom"; err_details := JUndefined |}
    = None.
Proof. vm_compute. split; reflexivity. Qed.

End ErrorHandlerFacts.

(** ** The token storage of the browser side *)

Module ClientFacts.
Import Client ClientVocabulary.

Lemma keys_differ : TOKEN_KEY ≠ TOKEN_EXPIRY_KEY.
Proof. discriminate. Qed.

Lemma storeToken_lookup (cal : Calendar) (now : Z) (token : string)
    (st : gmap string string) :
  storeToken cal now token st !! TOKEN_KEY = Some token
  ∧ storeToken cal now token st !! TOKEN_EXPIRY_KEY
    = Some (toISOString cal (plus_days cal now TOKEN_EXPIRY_DAYS)).
Proof.
  unfold storeToken. split.
  - rewrite lookup_insert_ne by (apply not_eq_sym, keys_differ).
    apply lookup_insert_eq.
  - apply lookup_insert_eq.
Qed.

Lemma clearToken_lookup (st : gmap string string) (k : string) :
  clearToken st !! k
  = if bool_decide (k = TOKEN_KEY ∨ k = TOKEN_EXPIRY_KEY) then None
    else st !! k.
Proof.
  unfold clearToken. case_bool_decide as Hk.
  - destruct Hk as [-> | ->].
    + rewrite lookup_delete_ne by (apply not_eq_sym, keys_differ).
      apply lookup_delete_eq.
    + apply lookup_delete_eq.
  - rewrite !lookup_delete_ne by (intros ?; subst k; apply Hk; auto). done.
Qed.

(** What [getToken] answers, read backwards. *)
Lemma getToken_some (cal : Calendar) (now : Z) (st : gmap string string)
    (token : string) :
  (getToken cal now st).1 = Some token ->
  (getToken cal now st).2 = st ∧ token ≠ "" ∧ st !! TOKEN_KEY = Some token.
Proof.
  unfold getToken.
  destruct (negb (Js.truthy_str (st !! TOKEN_KEY))) eqn:Ht;
    cbn [orb fst snd]; [discriminate|].
  destruct (_ || _); cbn [fst snd]; [discriminate|].
  intros Hsome. rewrite Hsome in Ht. cbn [Js.truthy_str] in Ht.
  apply negb_false_iff, negb_true_iff, String.eqb_neq in Ht. done.
Qed.

Lemma getToken_none (cal : Calendar) (now : Z) (st : gmap string string) :
  (getToken cal now st).1 = None ->
  (getToken cal now st).2 !! TOKEN_KEY = None
  ∧ (getToken cal now st).2 !! TOKEN_EXPIRY_KEY = None.
Proof.
  unfold getToken.
  destruct (negb (Js.truthy_str (st !! TOKEN_KEY))) eqn:Ht; cbn [orb fst snd].
  - intros _. rewrite !clearToken_lookup.
    split; rewrite bool_decide_eq_true_2; auto.
  - destruct (_ || _); cbn [fst snd].
    + intros _. rewrite !clearToken_lookup.
      split; rewrite bool_decide_eq_true_2; auto.
    + intros Hnone. rewrite Hnone in Ht. discriminate Ht.
Qed.

(** X23: a token stored at [now] is handed back by [getToken] as long as
    the current instant is not after the stored expiry, seven calendar
    days later, and the storage stays as it is; after the expiry
    [getToken] answers [null] and removes the token and its expiry, and
    nothing else. *)
Theorem stored_token_lasts_until_expiry (cal : Calendar) (now later : Z)
    (token : string) (st : gmap string string) (expiry : Z) :
  token ≠ "" ->
  toISOString cal (plus_days cal now 7) ≠ "" ->
  Date_parse cal (toISOString cal (plus_days cal now 7)) = Some expiry ->
  let st1 := storeToken cal now token st in
  (later <= expiry -> getToken cal later st1 = (Some token, st1))
  ∧ (expiry < later ->
     getToken cal later st1 = (None, clearToken st)
     ∧ clearToken st !! TOKEN_KEY = None
     ∧ clearToken st !! TOKEN_EXPIRY_KEY = None).
Proof.
  intros Htok Hiso Hparse st1.
  destruct (storeToken_lookup cal now token st) as [Ht He]. fold st1 in Ht, He.
  assert (negb (Js.truthy_str (st1 !! TOKEN_KEY))
          || negb (Js.truthy_str (st1 !! TOKEN_EXPIRY_KEY)) = false) as Hpresent.
  { rewrite Ht, He. cbn [Js.truthy_str].
    apply String.eqb_neq in Htok, Hiso. unfold TOKEN_EXPIRY_DAYS.
    by rewrite Htok, Hiso. }
  unfold getToken. rewrite Hpresent. cbn [orb].
  rewrite He. cbn [default from_option id]. unfold before, TOKEN_EXPIRY_DAYS.
  rewrite Hparse. split.
  - intros Hle. destruct (Z.ltb_spec expiry later); [lia|]. by rewrite Ht.
  - intros Hlt. destruct (Z.ltb_spec expiry later); [|lia].
    assert (clearToken st1 = clearToken st) as ->.
    { apply map_eq. intros k. rewrite !clearToken_lookup.
      case_bool_decide as Hk; [done|]. subst st1. unfold storeToken.
      rewrite !lookup_insert_ne by (intros ?; subst k; apply Hk; auto). done. }
    split; [done|]. rewrite !clearToken_lookup.
    split; rewrite bool_decide_eq_true_2; auto.
Qed.

(** Instance: a token stored on the first of May and read a day later. *)
Lemma stored_token_lasts_until_expiry_witness :
  let cal := Browser.calendar in
  let st1 := storeToken cal Browser.now "tok-1" Browser.storage in
  let later := Browser.now + 86400000 in
  "tok-1" ≠ ""
  ∧ toISOString cal (plus_days cal Browser.now 7) ≠ ""
  ∧ Date_parse cal (toISOString cal (plus_days cal Browser.now 7))
    = Some 1715162400000
  ∧ (later <= 1715162400000 -> getToken cal later st1 = (Some "tok-1", st1))
  ∧ (1715162400000 < later ->
     getToken cal later st1 = (None, clearToken Browser.storage)
     ∧ clearToken Browser.storage !! TOKEN_KEY = None
     ∧ clearToken Browser.storage !! TOKEN_EXPIRY_KEY = None).
Proof.
  intros cal st1 later.
  assert ("tok-1" ≠ "") as Htok by discriminate.
  assert (toISOString cal (plus_days cal Browser.now 7) ≠ "") as Hiso
    by (vm_compute; discriminate).
  assert (Date_parse cal (toISOString cal (plus_days cal Browser.now 7))
          = Some 1715162400000) as Hparse by (vm_compute; reflexivity).
  split; [exact Htok|]. split; [exact Hiso|]. split; [exact Hparse|].
  exact (stored_token_lasts_until_expiry cal Browser.now later "tok-1"
           Browser.storage 1715162400000 Htok Hiso Hparse).
Defined.

(** X24: [getToken] either hands back the stored token, which is then not
    empty and comes with a non-empty expiry entry, and leaves the storage
    alone; or it answers [null] and leaves neither the token nor its
    expiry behind.  Entries under other keys are never changed. *)
Theorem getToken_all_or_nothing (cal : Calendar) (now : Z)
    (st : gmap string string) :
  let st' := (getToken cal now st).2 in
  (∀ k, k ≠ TOKEN_KEY -> k ≠ TOKEN_EXPIRY_KEY -> st' !! k = st !! k)
  ∧ match (getToken cal now st).1 with
    | Some token =>
        st' = st ∧ token ≠ "" ∧ st !! TOKEN_KEY = Some token
        ∧ ∃ x, st !! TOKEN_EXPIRY_KEY = Some x ∧ x ≠ ""
               ∧ before cal x now = false
    | None => st' !! TOKEN_KEY = None ∧ st' !! TOKEN_EXPIRY_KEY = None
    end.
Proof.
  unfold getToken.
  destruct (negb (Js.truthy_str (st !! TOKEN_KEY))
            || negb (Js.truthy_str (st !! TOKEN_EXPIRY_KEY))
            || before cal (default "" (st !! TOKEN_EXPIRY_KEY)) now) eqn:Hguard;
    cbn [fst snd].
  - split.
    + intros k H1 H2. rewrite clearToken_lookup.
      rewrite bool_decide_eq_false_2; [done|]. by intros [? | ?].
    + rewrite !clearToken_lookup. split; rewrite bool_decide_eq_true_2; auto.
  - apply orb_false_iff in Hguard as [Hguard Hbefore].
    apply orb_false_iff in Hguard as [Ht He].
    apply negb_false_iff in Ht, He. split; [done|].
    destruct (st !! TOKEN_KEY) as [token|]; [|discriminate Ht].
    destruct (st !! TOKEN_EXPIRY_KEY) as [x|]; [|discriminate He].
    cbn [Js.truthy_str] in Ht, He.
    apply negb_true_iff, String.eqb_neq in Ht, He.
    split; [done|]. split; [done|]. split; [done|]. by exists x.
Qed.

(** X25: a token whose expiry entry does not read as a date never expires:
    [getToken] hands it back at every instant. *)
Theorem token_with_unreadable_expiry_stays (cal : Calendar) (now : Z)
    (st : gmap string string) (token x : string) :
  st !! TOKEN_KEY = Some token ->
  token ≠ "" ->
  st !! TOKEN_EXPIRY_KEY = Some x ->
  x ≠ "" ->
  Date_parse cal x = None ->
  getToken cal now st = (Some token, st).
Proof.
  intros Ht Htok He Hx Hparse. unfold getToken, before.
  rewrite Ht, He. cbn [Js.truthy_str default from_option id].
  apply String.eqb_neq in Htok, Hx. by rewrite Htok, Hx, Hparse.
Qed.

(** Instance: the expiry entry reads "next week". *)
Lemma token_with_unreadable_expiry_stays_witness :
  Browser.damaged !! TOKEN_KEY = Some "tok-1"
  ∧ "tok-1" ≠ ""
  ∧ Browser.damaged !! TOKEN_EXPIRY_KEY = Some "next week"
  ∧ "next week" ≠ ""
  ∧ Date_parse Browser.calendar "next week" = None
  ∧ getToken Browser.calendar (Browser.now + 86400000 * 3650) Browser.damaged
    = (Some "tok-1", Browser.damaged).
Proof.
  assert (Browser.damaged !! TOKEN_KEY = Some "tok-1") as Ht
    by (vm_compute; reflexivity).
  assert ("tok-1" ≠ "") as Htok by discriminate.
  assert (Browser.damaged !! TOKEN_EXPIRY_KEY = Some "next week") as He
    by (vm_compute; reflexivity).
  assert ("next week" ≠ "") as Hx by discriminate.
  assert (Date_parse Browser.calendar "next week" = None) as Hparse
    by reflexivity.
  split; [exact Ht|]. split; [exact Htok|]. split; [exact He|].
  split; [exact Hx|]. split; [exact Hparse|].
  exact (token_with_unreadable_expiry_stays Browser.calendar _
           Browser.damaged "tok-1" "next week" Ht Htok He Hx Hparse).
Defined.

(** *** Requests *)

(** The run of [makeRequest] when it gets to send. *)
Lemma makeRequest_sending (cal : Calendar) (now : Z)
    (fetch : FetchRequest -> Outcome FetchResponse) (url method : string)
    (body : RequestBody) (requiresAuth : bool) (st : gmap string string) :
  (requiresAuth = true -> (getToken cal now st).1 ≠ None) ->
  let auth := if requiresAuth
              then Some ("Bearer " +:+ Js.interpolate (st !! TOKEN_KEY))
              else None in
  makeRequest cal now fetch url method body requiresAuth st
  = {| outcome := outcome_of (fetch (request_of url method body auth));
       storage := st;
       sent := [request_of url method body auth] |}.
Proof.
  intros Hcan. unfold makeRequest.
  destruct requiresAuth; [|reflexivity].
  specialize (Hcan eq_refl).
  pose proof (getToken_some cal now st) as Hget.
  destruct (getToken cal now st) as [[token|] st'] eqn:Hrun;
    cbn [fst snd] in *; [|done].
  destruct (Hget token eq_refl) as (-> & Hne & Ht).
  cbn [Js.truthy_str]. apply String.eqb_neq in Hne. rewrite Hne, Ht.
  reflexivity.
Qed.

(** X26: a request that requires authentication is not sent when
    [getToken] has no token to give: [makeRequest] throws "Authentication
    required" without calling [fetch], and the storage is left without a
    token and without an expiry. *)
Theorem makeRequest_requires_token (cal : Calendar) (now : Z)
    (fetch : FetchRequest -> Outcome FetchResponse) (url method : string)
    (body : RequestBody) (st : gmap string string) :
  (getToken cal now st).1 = None ->
  let res := makeRequest cal now fetch url method body true st in
  outcome res = Rejected (Error "Authentication required")
  ∧ sent res = []
  ∧ storage res !! TOKEN_KEY = None
  ∧ storage res !! TOKEN_EXPIRY_KEY = None.
Proof.
  intros Hnone. unfold makeRequest.
  pose proof (getToken_none cal now st Hnone) as Hget.
  destruct (getToken cal now st) as [[token|] st'] eqn:Hrun;
    cbn [fst snd] in *; [discriminate Hnone|].
  cbn [Js.truthy_str negb outcome sent storage]. by destruct Hget.
Qed.

(** Instance: a storage that holds no token. *)
Lemma makeRequest_requires_token_witness :
  let res := makeRequest Browser.calendar Browser.now Browser.unauthorized
               "/projects" "POST" NoBody true Browser.storage in
  (getToken Browser.calendar Browser.now Browser.storage).1 = None
  ∧ outcome res = Rejected (Error "Authentication required")
  ∧ sent res = []
  ∧ storage res !! TOKEN_KEY = None
  ∧ storage res !! TOKEN_EXPIRY_KEY = None.
Proof.
  intros res.
  assert ((getToken Browser.calendar Browser.now Browser.storage).1 = None)
    as Hnone by (vm_compute; reflexivity).
  split; [exact Hnone|].
  exact (makeRequest_requires_token Browser.calendar Browser.now
           Browser.unauthorized "/projects" "POST" NoBody Browser.storage
           Hnone).
Defined.

(** X27: when [makeRequest] gets to send, that is when no authentication
    is required or [getToken] gives a token, it calls [fetch] exactly once,
    on the API base URL followed by the given path, with the given method.
    The request carries [Authorization: Bearer] and the stored token
    exactly when authentication is required.  Its content type is
    ["application/json"] unless the body is a form, for which none is
    set.  The storage is left as it was. *)
Theorem makeRequest_sends_once (cal : Calendar) (now : Z)
    (fetch : FetchRequest -> Outcome FetchResponse) (url method : string)
    (body : RequestBody) (requiresAuth : bool) (st : gmap string string) :
  (requiresAuth = true -> (getToken cal now st).1 ≠ None) ->
  let res := makeRequest cal now fetch url method body requiresAuth st in
  storage res = st
  ∧ ∃ req,
      sent res = [req]
      ∧ fetch_url req = API_BASE_URL +:+ url
      ∧ fetch_method req = method
      ∧ (content_type req = None ↔ ∃ f, body = FormBody f)
      ∧ (content_type req = Some "application/json"
         ↔ ∀ f, body ≠ FormBody f)
      ∧ (requiresAuth = false -> authorization req = None)
      ∧ (requiresAuth = true ->
         ∃ token, st !! TOKEN_KEY = Some token
                  ∧ authorization req = Some ("Bearer " +:+ token)).
Proof.
  intros Hcan res. subst res.
  rewrite (makeRequest_sending cal now fetch url method body requiresAuth st
             Hcan).
  cbn [storage sent]. split; [reflexivity|]. eexists. split; [reflexivity|].
  cbn [request_of fetch_url fetch_method content_type authorization].
  split; [reflexivity|]. split; [reflexivity|]. split; [|split; [|split]].
  - destruct body; split; try discriminate; try (by intros [? ?]); eauto.
  - destruct body as [| j | f]; split; try done.
    intros Hform. by destruct (Hform f).
  - by intros ->.
  - intros ->. specialize (Hcan eq_refl).
    pose proof (getToken_some cal now st) as Hget.
    destruct ((getToken cal now st).1) as [token|]; [|done].
    destruct (Hget token eq_refl) as (_ & _ & Ht). exists token. by rewrite Ht.
Qed.

(** Instance: an authenticated request with a token stored the same
    day. *)
Lemma makeRequest_sends_once_witness :
  let st := storeToken Browser.calendar Browser.now "tok-1" Browser.storage in
  let res := makeRequest Browser.calendar Browser.now Browser.unauthorized
               "/projects" "POST" (JsonBody (JObj [("title", JStr "T")]))
               true st in
  (true = true -> (getToken Browser.calendar Browser.now st).1 ≠ None)
  ∧ storage res = st
  ∧ ∃ req,
      sent res = [req]
      ∧ fetch_url req = API_BASE_URL +:+ "/projects"
      ∧ fetch_method req = "POST"
      ∧ (content_type req = None
         ↔ ∃ f, JsonBody (JObj [("title", JStr "T")]) = FormBody f)
      ∧ (content_type req = Some "application/json"
         ↔ ∀ f, JsonBody (JObj [("title", JStr "T")]) ≠ FormBody f)
      ∧ (true = false -> authorization req = None)
      ∧ (true = true ->
         ∃ token, st !! TOKEN_KEY = Some token
                  ∧ authorization req = Some ("Bearer " +:+ token)).
Proof.
  intros st res.
  assert (true = true -> (getToken Browser.calendar Browser.now st).1 ≠ None)
    as Hcan by (intros _; vm_compute; discriminate).
  split; [exact Hcan|].
  exact (makeRequest_sends_once Browser.calendar Browser.now
           Browser.unauthorized "/projects" "POST"
           (JsonBody (JObj [("title", JStr "T")])) true st Hcan).
Defined.

(** X28: what the caller of [makeRequest] gets once the request is sent.
    A response that is [ok] gives the outcome of reading its JSON.  One
    that is not makes the call throw, with the [error] text of the body
    when there is a non-empty one and "Request failed with status" and the
    status otherwise.  A failure of [fetch] itself is passed on. *)
Theorem makeRequest_outcome (cal : Calendar) (now : Z)
    (fetch : FetchRequest -> Outcome FetchResponse) (url method : string)
    (body : RequestBody) (requiresAuth : bool) (st : gmap string string) :
  (requiresAuth = true -> (getToken cal now st).1 ≠ None) ->
  let res := makeRequest cal now fetch url method body requiresAuth st in
  ∃ req,
    sent res = [req]
    ∧ (∀ data, fetch req = Resolved (Ok data) -> outcome res = data)
    ∧ (∀ code m, fetch req = Resolved (NotOk code (Some m)) -> m ≠ "" ->
                 outcome res = Rejected (Error m))
    ∧ (∀ code error, fetch req = Resolved (NotOk code error) ->
                     error = None ∨ error = Some "" ->
                     outcome res
                     = Rejected (Error ("Request failed with status "
                                        +:+ pretty code)))
    ∧ (∀ e, fetch req = Rejected e -> outcome res = Rejected e).
Proof.
  intros Hcan res. subst res.
  rewrite (makeRequest_sending cal now fetch url method body requiresAuth st
             Hcan).
  cbn [outcome sent]. eexists. split; [reflexivity|].
  split; [by intros data ->|]. split; [|split].
  - intros code m -> Hm%String.eqb_neq. cbn [outcome_of Js.or_str].
    by rewrite Hm.
  - by intros code error -> [-> | ->].
  - by intros e ->.
Qed.

(** Instance: the server answers 401 with an error text. *)
Lemma makeRequest_outcome_witness :
  let res := makeRequest Browser.calendar Browser.now Browser.unauthorized
               "/auth/signup" "POST" NoBody false Browser.storage in
  let fetch := Browser.unauthorized in
  (false = true ->
   (getToken Browser.calendar Browser.now Browser.storage).1 ≠ None)
  ∧ ∃ req,
      sent res = [req]
      ∧ (∀ data, fetch req = Resolved (Ok data) -> outcome res = data)
      ∧ (∀ code m, fetch req = Resolved (NotOk code (Some m)) -> m ≠ "" ->
                   outcome res = Rejected (Error m))
      ∧ (∀ code error, fetch req = Resolved (NotOk code error) ->
                       error = None ∨ error = Some "" ->
                       outcome res
                       = Rejected (Error ("Request failed with status "
                                          +:+ pretty code)))
      ∧ (∀ e, fetch req = Rejected e -> outcome res = Rejected e).
Proof.
  intros res fetch.
  assert (false = true ->
          (getToken Browser.calendar Browser.now Browser.storage).1 ≠ None)
    as Hcan by discriminate.
  split; [exact Hcan|].
  exact (makeRequest_outcome Browser.calendar Browser.now Browser.unauthorized
           "/auth/signup" "POST" NoBody false Browser.storage Hcan).
Defined.

(** The sample server's 401 as the caller sees it. *)
Example makeRequest_unauthorized :
  outcome (makeRequest Browser.calendar Browser.now Browser.unauthorized
             "/auth/signup" "POST" NoBody false Browser.storage)
  = Rejected (Error "Invalid token").
Proof. reflexivity. Qed.

End ClientFacts.
